(** * Social media content generation pipeline

    A shallow embedding of the agents of the repository
    ([base_agent.py], [content_analysis_agent.py], [text_generation_agent.py],
    [visual_generation_agent.py], [orchestrator_agent.py]) and the properties
    of the orchestration pipeline.

    Conventions of the embedding:
    - Python exceptions are values of [exn]; a call that may raise returns a
      [result].
    - Caller-supplied dictionaries ([Dict[str, Any]]) are association lists of
      dynamically typed values [pyval], so that key presence, [None] and
      ill-typed entries are all expressible.
    - Python [float]s are modelled by exact rationals [Q]; the rounding of
      quotients to binary64 is outside this model and is measured separately
      for the tone weights ([Binary64]).
    - Strings are sequences of 8-bit characters.
    - The external services (NLTK, the OpenAI endpoints, Pillow, the clock)
      are fields of the [agent] record of the class that uses them; every
      theorem quantifies over them.
    - Logging and printing have no effect on results and are omitted. *)

From Stdlib Require Import ZArith QArith List String Ascii Bool Lia.
From Stdlib.Strings Require Import Byte.
From Stdlib Require Import Floats Uint63 Permutation Sorted.
From Stdlib Require Decimal DecimalString DecimalNat.
Import ListNotations.

#[local] Set Warnings "-register-all".

Local Open Scope string_scope.
Local Open Scope Z_scope.

(* ================================================================= *)
(** ** Python values, exceptions and results *)

Module Py.

Inductive pyval : Type :=
| VNone
| VBool (b : bool)
| VInt (z : Z)
| VStr (s : string)
| VList (l : list pyval)
| VDict (d : list (string * pyval)).

Inductive exn : Type :=
| ValueError (msg : string)
| TypeError (msg : string)
| AttributeError (msg : string)
| ZeroDivisionError (msg : string)
| KeyError (msg : string)
| ExternalError (msg : string).

(** [str(e)] *)
Definition exn_str (e : exn) : string :=
  match e with
  | ValueError m | TypeError m | AttributeError m
  | ZeroDivisionError m | KeyError m | ExternalError m => m
  end.

Inductive result (A : Type) : Type :=
| Ok (a : A)
| Raise (e : exn).
Arguments Ok {A} a.
Arguments Raise {A} e.

Definition bind {A B} (r : result A) (k : A -> result B) : result B :=
  match r with
  | Ok a => k a
  | Raise e => Raise e
  end.

Definition is_ok {A} (r : result A) : bool :=
  match r with Ok _ => true | Raise _ => false end.

Definition bytes := list byte.

(** Dictionaries keep insertion order; lookup finds the entry of a key. *)
Fixpoint dict_get {V} (k : string) (d : list (string * V)) : option V :=
  match d with
  | [] => None
  | (k', v) :: d' => if String.eqb k k' then Some v else dict_get k d'
  end.

(** [k in d] *)
Definition dict_mem (k : string) (keys : list string) : bool :=
  existsb (String.eqb k) keys.

(** [d.get(k, default)] *)
Definition dict_get_default {V} (k : string) (d : list (string * V)) (default : V) : V :=
  match dict_get k d with
  | Some v => v
  | None => default
  end.

(** [d[k] = v]: the entry of an existing key is replaced in place, a new key
    is added at the end. *)
Fixpoint dict_set {V} (k : string) (v : V) (d : list (string * V)) : list (string * V) :=
  match d with
  | [] => [(k, v)]
  | (k', v') :: d' =>
      if String.eqb k k' then (k', v) :: d' else (k', v') :: dict_set k v d'
  end.

(** [d.update(updates)] *)
Definition dict_update {V} (d updates : list (string * V)) : list (string * V) :=
  fold_left (fun acc kv => dict_set (fst kv) (snd kv) acc) updates d.

(** Truth value of an object, as tested by [if x] and [x or y]. *)
Definition truthy (v : pyval) : bool :=
  match v with
  | VNone => false
  | VBool b => b
  | VInt z => negb (z =? 0)
  | VStr s => negb (String.eqb s "")
  | VList l => match l with [] => false | _ => true end
  | VDict d => match d with [] => false | _ => true end
  end.

Definition chars (s : string) : list string :=
  map (fun c => String c EmptyString) (list_ascii_of_string s).

(** Iteration protocol: lists yield their items, strings their characters,
    dictionaries their keys; the other values are not iterable. *)
Definition iter (v : pyval) : result (list pyval) :=
  match v with
  | VList l => Ok l
  | VStr s => Ok (map VStr (chars s))
  | VDict d => Ok (map (fun kv => VStr (fst kv)) d)
  | VNone => Raise (TypeError "'NoneType' object is not iterable")
  | VBool _ => Raise (TypeError "'bool' object is not iterable")
  | VInt _ => Raise (TypeError "'int' object is not iterable")
  end.

(** [v.get(k, default)]: only dictionaries have a [get] method. *)
Definition method_get (v : pyval) (k : string) (default : pyval) : result pyval :=
  match v with
  | VDict d => Ok (dict_get_default k d default)
  | _ => Raise (AttributeError "object has no attribute 'get'")
  end.

(** Whether a value can be used as a dictionary key. *)
Definition hashable (v : pyval) : bool :=
  match v with
  | VList _ | VDict _ => false
  | _ => true
  end.

(** [range(n)] as the list of its indices; [bool] is a subclass of [int]. *)
Definition range (v : pyval) : result (list nat) :=
  match v with
  | VInt n => Ok (seq 0 (Z.to_nat n))
  | VBool b => Ok (seq 0 (if b then 1 else 0)%nat)
  | _ => Raise (TypeError "object cannot be interpreted as an integer")
  end.

(** The integer an [int] or [bool] stands for in arithmetic. *)
Definition as_int (v : pyval) : option Z :=
  match v with
  | VInt n => Some n
  | VBool b => Some (if b then 1 else 0)
  | _ => None
  end.

(** True division [a / b]. *)
Definition div (a : Q) (b : Z) : result Q :=
  if b =? 0 then Raise (ZeroDivisionError "division by zero")
  else Ok (a / inject_Z b)%Q.

(** ASCII strings *)

Definition lower_ascii (c : ascii) : ascii :=
  let n := nat_of_ascii c in
  if (65 <=? n)%nat && (n <=? 90)%nat then ascii_of_nat (n + 32) else c.

Fixpoint lower (s : string) : string :=
  match s with
  | EmptyString => EmptyString
  | String c s' => String (lower_ascii c) (lower s')
  end.

(** [needle in hay] *)
Fixpoint contains (needle hay : string) : bool :=
  if String.prefix needle hay then true
  else match hay with
       | EmptyString => false
       | String _ hay' => contains needle hay'
       end.

Definition is_space (c : ascii) : bool :=
  let n := nat_of_ascii c in
  ((9 <=? n)%nat && (n <=? 13)%nat) || (n =? 32)%nat || ((28 <=? n)%nat && (n <=? 31)%nat).

(** [s.split()]: maximal runs of non-whitespace characters. *)
Fixpoint split_aux (s : string) (cur : string) : list string :=
  match s with
  | EmptyString => if String.eqb cur "" then [] else [cur]
  | String c s' =>
      if is_space c
      then (if String.eqb cur "" then split_aux s' "" else cur :: split_aux s' "")
      else split_aux s' (cur ++ String c EmptyString)
  end.

Definition split (s : string) : list string := split_aux s "".

Fixpoint lstrip (s : string) : string :=
  match s with
  | String c s' => if is_space c then lstrip s' else s
  | EmptyString => EmptyString
  end.

Definition rev_string (s : string) : string :=
  string_of_list_ascii (rev (list_ascii_of_string s)).

(** [s.strip()] *)
Definition strip (s : string) : string :=
  rev_string (lstrip (rev_string (lstrip s))).

(** [sep.join(items)] over strings *)
Fixpoint join (sep : string) (items : list string) : string :=
  match items with
  | [] => ""
  | [x] => x
  | x :: rest => x ++ sep ++ join sep rest
  end.

(** [s.count(c)] for a one-character pattern *)
Definition count_char (c : ascii) (s : string) : Z :=
  Z.of_nat (List.length (filter (Ascii.eqb c) (list_ascii_of_string s))).

Definition as_str (v : pyval) : option string :=
  match v with VStr s => Some s | _ => None end.

(** All items of a list as strings, if every one is a [str]. *)
Fixpoint all_str (l : list pyval) : option (list string) :=
  match l with
  | [] => Some []
  | v :: l' =>
      match as_str v, all_str l' with
      | Some s, Some ss => Some (s :: ss)
      | _, _ => None
      end
  end.

End Py.

Export Py.

Declare Scope result_scope.
Delimit Scope result_scope with result.
Notation "x <- c1 ;; c2" := (Py.bind c1 (fun x => c2))
  (at level 61, c1 at next level, right associativity) : result_scope.
Local Open Scope result_scope.

(* ================================================================= *)
(** ** [base_agent.py] *)

Module BaseAgent.

(** [validate_input]: the required fields that are not keys of the input are
    collected; the input is valid when none is missing. *)
Definition validate_input (input_keys : list string) (required_fields : list string) : bool :=
  let missing_fields :=
    filter (fun field => negb (dict_mem field input_keys)) required_fields in
  match missing_fields with
  | [] => true
  | _ => false
  end.

(** [get_config] *)
Definition get_config (config : list (string * pyval)) (key : string) (default : pyval)
  : pyval :=
  dict_get_default key config default.

(** [update_config]: the new configuration of the agent. *)
Definition update_config (config updates : list (string * pyval))
  : list (string * pyval) :=
  dict_update config updates.

End BaseAgent.

(* ================================================================= *)
(** ** [content_analysis_agent.py] *)

Module ContentAnalysisAgent.

(** Scores returned by NLTK's [SentimentIntensityAnalyzer.polarity_scores]. *)
Record PolarityScores : Type := {
  pos : Q;
  neg : Q;
  neu : Q;
  compound : Q
}.

(** The agent's NLP components, initialised by [_initialize_nlp]. *)
Record agent : Type := {
  polarity_scores : string -> PolarityScores;
  sent_tokenize : string -> list string;
  word_tokenize : string -> list string;
  pos_tag : list string -> list (string * string)
}.

Record Sentiment : Type := {
  positive : Q;
  negative : Q;
  neutral : Q;
  sentiment_compound : Q
}.

Record StyleMetrics : Type := {
  avg_sentence_length : Q;
  vocabulary_richness : Q;
  emoji_usage : Q
}.

Record LanguageMetrics : Type := {
  avg_post_length : Q;
  avg_word_length : Q;
  question_frequency : Q;
  exclamation_frequency : Q
}.

(** The dictionary returned by [process]. *)
Record AnalysisResults : Type := {
  overall_sentiment : Sentiment;
  tone_analysis : list (string * Q);
  style_characteristics : StyleMetrics;
  common_topics : list string;
  language_metrics : LanguageMetrics
}.

Definition sumQ (l : list Q) : Q := fold_right Qplus 0%Q l.
Definition sumZ (l : list Z) : Z := fold_right Z.add 0 l.
Definition len {A} (l : list A) : Z := Z.of_nat (List.length l).

(** [_analyze_overall_sentiment]: the averages divide by [len(sentiments)]
    without a guard. *)
Definition _analyze_overall_sentiment (self : agent) (posts : list string)
  : result Sentiment :=
  let sentiments := map (polarity_scores self) posts in
  p <- div (sumQ (map pos sentiments)) (len sentiments);;
  n <- div (sumQ (map neg sentiments)) (len sentiments);;
  u <- div (sumQ (map neu sentiments)) (len sentiments);;
  c <- div (sumQ (map compound sentiments)) (len sentiments);;
  Ok {| positive := p; negative := n; neutral := u; sentiment_compound := c |}.

Definition tone_markers : list (string * list string) :=
  [ ("professional", ["therefore"; "consequently"; "furthermore"; "moreover"]);
    ("casual", ["hey"; "cool"; "awesome"; "yeah"]);
    ("formal", ["hereby"; "accordingly"; "pursuant"; "whilst"]);
    ("friendly", ["thanks"; "please"; "welcome"; "happy"]) ].

(** [sum(1 for marker in markers if marker in post_lower)] *)
Definition marker_hits (markers : list string) (post_lower : string) : Z :=
  len (filter (fun marker => contains marker post_lower) markers).

(** [tone_scores[tone] += score] *)
Fixpoint dict_add (tone : string) (score : Z) (tone_scores : list (string * Z))
  : list (string * Z) :=
  match tone_scores with
  | [] => []
  | (t, s) :: rest =>
      if String.eqb tone t then (t, s + score) :: rest
      else (t, s) :: dict_add tone score rest
  end.

(** One iteration of the loop over the posts. *)
Definition score_post (tone_scores : list (string * Z)) (post : string)
  : list (string * Z) :=
  let post_lower := lower post in
  fold_left
    (fun scores tm => dict_add (fst tm) (marker_hits (snd tm) post_lower) scores)
    tone_markers tone_scores.

(** The raw marker counts after the loop.  The source keeps them in floats
    that only ever hold integers; they are carried as integers here and
    converted at the division. *)
Definition tone_scores (posts : list string) : list (string * Z) :=
  fold_left score_post posts (map (fun tm => (fst tm, 0)) tone_markers).

(** [total_scores = sum(tone_scores.values()) or 1] *)
Definition total_scores (scores : list (string * Z)) : Z :=
  let total := sumZ (map snd scores) in
  if total =? 0 then 1 else total.

(** [_analyze_tone]: every score is divided by [total_scores]. *)
Definition _analyze_tone (posts : list string) : list (string * Q) :=
  let scores := tone_scores posts in
  map (fun ts => (fst ts, (inject_Z (snd ts) / inject_Z (total_scores scores))%Q)) scores.

(** [_is_emoji]: a character outside ASCII. *)
Definition _is_emoji (character : ascii) : bool :=
  (127 <? nat_of_ascii character)%nat.

Definition unique (words : list string) : list string :=
  nodup string_dec words.

(** [_analyze_style] *)
Definition _analyze_style (self : agent) (posts : list string) : StyleMetrics :=
  let total_words := sumZ (map (fun post => len (word_tokenize self (lower post))) posts) in
  let unique_words := unique (flat_map (fun post => word_tokenize self (lower post)) posts) in
  let sentence_words :=
    sumZ (map (fun post =>
                 sumZ (map (fun sent => len (word_tokenize self sent))
                           (sent_tokenize self post))) posts) in
  let emojis :=
    sumZ (map (fun post => len (filter _is_emoji (list_ascii_of_string post))) posts) in
  let num_posts := len posts in
  if 0 <? num_posts then
    {| avg_sentence_length := (inject_Z sentence_words / inject_Z num_posts)%Q;
       vocabulary_richness :=
         if 0 <? total_words
         then (inject_Z (len unique_words) / inject_Z total_words)%Q else 0%Q;
       emoji_usage := (inject_Z emojis / inject_Z num_posts)%Q |}
  else
    {| avg_sentence_length := inject_Z sentence_words;
       vocabulary_richness := 0%Q;
       emoji_usage := inject_Z emojis |}.

(** [Counter(words)]: counts in first-seen order. *)
Fixpoint counter_add (w : string) (c : list (string * Z)) : list (string * Z) :=
  match c with
  | [] => [(w, 1)]
  | (w', n) :: rest =>
      if String.eqb w w' then (w', n + 1) :: rest else (w', n) :: counter_add w rest
  end.

Definition Counter (words : list string) : list (string * Z) :=
  fold_left (fun c w => counter_add w c) words [].

(** Stable insertion by decreasing count. *)
Fixpoint insert_by_count (x : string * Z) (l : list (string * Z)) : list (string * Z) :=
  match l with
  | [] => [x]
  | y :: rest =>
      if snd y <? snd x then x :: y :: rest else y :: insert_by_count x rest
  end.

(** [Counter.most_common(n)] *)
Definition most_common (n : nat) (c : list (string * Z)) : list (string * Z) :=
  firstn n (fold_left (fun sorted x => insert_by_count x sorted) c []).

(** [_extract_topics]: the ten most frequent nouns. *)
Definition _extract_topics (self : agent) (posts : list string) : list string :=
  let words :=
    flat_map (fun post =>
                let tokens := word_tokenize self (lower post) in
                map fst (filter (fun wp => String.prefix "NN" (snd wp) || String.prefix "NNP" (snd wp))
                                (pos_tag self tokens))) posts in
  map fst (most_common 10 (Counter words)).

(** [_analyze_language_metrics] *)
Definition _analyze_language_metrics (self : agent) (posts : list string)
  : LanguageMetrics :=
  let total_words := sumZ (map (fun post => len (word_tokenize self post)) posts) in
  let total_chars :=
    sumZ (map (fun post =>
                 sumZ (map (fun word => Z.of_nat (String.length word))
                           (word_tokenize self post))) posts) in
  let questions := sumZ (map (count_char "?"%char) posts) in
  let exclamations := sumZ (map (count_char "!"%char) posts) in
  let num_posts := len posts in
  if 0 <? num_posts then
    {| avg_post_length := (inject_Z total_words / inject_Z num_posts)%Q;
       avg_word_length :=
         if 0 <? total_words
         then (inject_Z total_chars / inject_Z total_words)%Q else 0%Q;
       question_frequency := (inject_Z questions / inject_Z num_posts)%Q;
       exclamation_frequency := (inject_Z exclamations / inject_Z num_posts)%Q |}
  else
    {| avg_post_length := 0%Q;
       avg_word_length := 0%Q;
       question_frequency := inject_Z questions;
       exclamation_frequency := inject_Z exclamations |}.

(** The posts as the analysis iterates over them: [for post in posts] yields
    the items, each of which is handed to the NLTK analyzer, which accepts
    text only. *)
Definition posts_of (v : pyval) : result (list string) :=
  items <- iter v;;
  match all_str items with
  | Some posts => Ok posts
  | None => Raise (AttributeError "object has no attribute 'encode'")
  end.

(** [process]: the entries of the result are computed in the order of the
    dictionary display, the sentiment first. *)
Definition process (self : agent) (input_data : list (string * pyval))
  : result AnalysisResults :=
  if negb (BaseAgent.validate_input (map fst input_data) ["posts"])
  then Raise (ValueError "Invalid input data")
  else
    match dict_get "posts" input_data with
    | None => Raise (ValueError "Invalid input data")
    | Some v =>
        posts <- posts_of v;;
        sentiment <- _analyze_overall_sentiment self posts;;
        Ok {| overall_sentiment := sentiment;
              tone_analysis := _analyze_tone posts;
              style_characteristics := _analyze_style self posts;
              common_topics := _extract_topics self posts;
              language_metrics := _analyze_language_metrics self posts |}
    end.

End ContentAnalysisAgent.

(* ================================================================= *)
(** ** [text_generation_agent.py] *)

Module TextGenerationAgent.

Import ContentAnalysisAgent.

(** The system prompt is a fixed template; these are the values substituted
    into it. *)
Record SystemPrompt : Type := {
  prompt_tone : string;
  prompt_avg_sentence_length : Q;
  prompt_vocabulary_richness : Q;
  prompt_topics : string;
  prompt_post_type : pyval;
  prompt_target_platform : pyval
}.

(** [client] is present when [_initialize_llm] assigned [self.client] at
    construction; it answers the [i]-th chat completion request with the
    message content or raises. *)
Record agent : Type := {
  client : option (nat -> SystemPrompt -> result string)
}.

(** The keyword dictionary passed to [process]; an absent key is [None]. *)
Record TextInput : Type := {
  brand_analysis : option AnalysisResults;
  num_posts : option pyval;
  post_type : option pyval;
  target_platform : option pyval
}.

Definition key_if {A} (k : string) (o : option A) : list string :=
  match o with Some _ => [k] | None => [] end.

Definition keys (input_data : TextInput) : list string :=
  key_if "brand_analysis" (brand_analysis input_data)
  ++ key_if "num_posts" (num_posts input_data)
  ++ key_if "post_type" (post_type input_data)
  ++ key_if "target_platform" (target_platform input_data).

Record TextMetadata : Type := {
  meta_post_type : pyval;
  meta_target_platform : pyval;
  success_rate : Q
}.

Record TextContent : Type := {
  generated_posts : list string;
  metadata : TextMetadata
}.

Definition Qltb (a b : Q) : bool := negb (Qle_bool b a).

(** [max(items, key=lambda x: x[1])]: an item replaces the running maximum
    only when its weight is strictly greater. *)
Definition max_by_weight (first : string * Q) (rest : list (string * Q)) : string * Q :=
  fold_left (fun best item => if Qltb (snd best) (snd item) then item else best)
            rest first.

(** [_get_dominant_tone] *)
Definition _get_dominant_tone (tone_analysis : list (string * Q)) : string :=
  match tone_analysis with
  | [] => "neutral"
  | first :: rest => fst (max_by_weight first rest)
  end.

(** [_create_system_prompt], on a profile of the shape that the content
    analysis agent returns, which is what the orchestrator passes.  For such
    a profile none of its steps raises.  A [brand_analysis] of another shape
    (a value without [get], a vocabulary richness that is not a number,
    topics that are not strings) makes the source raise here; such inputs
    are not values of [AnalysisResults]. *)
Definition _create_system_prompt (brand_analysis : AnalysisResults)
           (post_type target_platform : pyval) : SystemPrompt :=
  let tone := _get_dominant_tone (tone_analysis brand_analysis) in
  let style := style_characteristics brand_analysis in
  let topics := common_topics brand_analysis in
  {| prompt_tone := tone;
     prompt_avg_sentence_length := avg_sentence_length style;
     prompt_vocabulary_richness := vocabulary_richness style;
     prompt_topics := join ", " (firstn 5 topics);
     prompt_post_type := post_type;
     prompt_target_platform := target_platform |}.

(** The object that [OpenAI(api_key=...)] constructs: [models_list] is the
    outcome of the connection test [client.models.list()], [chat] answers
    the [i]-th chat completion request. *)
Record OpenAIClient : Type := {
  models_list : result unit;
  chat : nat -> SystemPrompt -> result string
}.

(** [_initialize_llm]: without a key, or with an empty one, a warning is
    logged and [self.client] is never assigned.  Otherwise the constructed
    client is assigned to [self.client] first and the connection is tested
    afterwards, both inside one [try]: an error of the construction leaves
    the agent without client, an error of the test is logged and the client
    that was already assigned stays. *)
Definition _initialize_llm (api_key : option string)
           (OpenAI : string -> result OpenAIClient) : agent :=
  match api_key with
  | None => {| client := None |}
  | Some key =>
      if String.eqb key "" then {| client := None |}
      else match OpenAI key with
           | Raise _ => {| client := None |}
           | Ok c =>
               let self := {| client := Some (chat c) |} in
               match models_list c with
               | Ok _ => self
               | Raise _ => self
               end
           end
  end.

(** [_generate_mock_post] *)
Definition _generate_mock_post : string :=
  "This is a placeholder post. Please provide an OpenAI API key for actual content generation.".

(** [_generate_post], for the [i]-th attempt: an error of the API call is
    logged and raised again. *)
Definition _generate_post (self : agent) (i : nat) (system_prompt : SystemPrompt)
  : result string :=
  match client self with
  | None => Ok _generate_mock_post
  | Some api =>
      match api i system_prompt with
      | Ok content => Ok (strip content)
      | Raise e => Raise e
      end
  end.

(** The body of the loop of [process]: a non-empty post is appended, an
    error is logged and the loop continues. *)
Definition attempt (self : agent) (system_prompt : SystemPrompt) (i : nat) : list string :=
  match _generate_post self i system_prompt with
  | Ok post => if String.eqb post "" then [] else [post]
  | Raise _ => []
  end.

(** [process] *)
Definition process (self : agent) (input_data : TextInput) : result TextContent :=
  if negb (BaseAgent.validate_input (keys input_data)
             ["brand_analysis"; "num_posts"; "post_type"; "target_platform"])
  then Raise (ValueError "Invalid input data")
  else
    match brand_analysis input_data, num_posts input_data,
          post_type input_data, target_platform input_data with
    | Some brand_analysis, Some num_posts, Some post_type, Some target_platform =>
        let system_prompt := _create_system_prompt brand_analysis post_type target_platform in
        indices <- range num_posts;;
        let generated_posts := flat_map (attempt self system_prompt) indices in
        rate <- match as_int num_posts with
                | Some n =>
                    if 0 <? n
                    then Ok (inject_Z (len generated_posts) / inject_Z n)%Q
                    else Ok 0%Q
                | None => Raise (TypeError "'>' not supported")
                end;;
        Ok {| generated_posts := generated_posts;
              metadata := {| meta_post_type := post_type;
                             meta_target_platform := target_platform;
                             success_rate := rate |} |}
    | _, _, _, _ => Raise (ValueError "Invalid input data")
    end.

End TextGenerationAgent.

(* ================================================================= *)
(** ** [visual_generation_agent.py] *)

Module VisualGenerationAgent.

(** The image prompt is a fixed template; these are the values substituted
    into it. *)
Record ImagePrompt : Type := {
  key_concepts : string;
  brand_style : pyval;
  color_scheme : string;
  mood : pyval
}.

(** [client] is present when [_initialize_image_generator] assigned
    [self.client] at construction and answers the [i]-th image request with the [b64_json] fields of
    [response.data], or raises.  [b64decode] is [base64.b64decode];
    [pil_pipeline] is the Pillow sequence open, resize, convert, save of
    [_process_image]; [mock_image] is the JPEG that [_generate_mock_image]
    draws, which depends on no input. *)
Record agent : Type := {
  client : option (nat -> ImagePrompt -> result (list string));
  b64decode : string -> result bytes;
  pil_pipeline : bytes -> pyval -> result bytes;
  mock_image : bytes
}.

(** The object that [OpenAI(api_key=...)] constructs: [models_list] is the
    outcome of the connection test, [images_generate] answers the [i]-th
    image request. *)
Record OpenAIClient : Type := {
  models_list : result unit;
  images_generate : nat -> ImagePrompt -> result (list string)
}.

(** [_initialize_image_generator]: as for the text agent, the method
    returns without assigning [self.client] when the key is absent or
    empty; otherwise the client is assigned before the connection test, so
    that only an error of the construction leaves the agent without
    client. *)
Definition _initialize_image_generator (api_key : option string)
           (OpenAI : string -> result OpenAIClient)
           (b64decode : string -> result bytes)
           (pil_pipeline : bytes -> pyval -> result bytes)
           (mock_image : bytes) : agent :=
  {| client := match api_key with
               | None => None
               | Some key =>
                   if String.eqb key "" then None
                   else match OpenAI key with
                        | Raise _ => None
                        | Ok c =>
                            match models_list c with
                            | Ok _ => Some (images_generate c)
                            | Raise _ => Some (images_generate c)
                            end
                        end
               end;
     b64decode := b64decode;
     pil_pipeline := pil_pipeline;
     mock_image := mock_image |}.

(** The keyword dictionary passed to [process]; an absent key is [None]. *)
Record VisualInput : Type := {
  text_content : option string;
  brand_guidelines : option pyval;
  style_preferences : option pyval;
  platform_specs : option pyval
}.

Definition keys (input_data : VisualInput) : list string :=
  TextGenerationAgent.key_if "text_content" (text_content input_data)
  ++ TextGenerationAgent.key_if "brand_guidelines" (brand_guidelines input_data)
  ++ TextGenerationAgent.key_if "style_preferences" (style_preferences input_data)
  ++ TextGenerationAgent.key_if "platform_specs" (platform_specs input_data).

(** The [metadata] dictionary; a key that is not set is [None]. *)
Record VisualMetadata : Type := {
  prompt_used : option ImagePrompt;
  meta_platform_specs : option pyval;
  generation_successful : bool;
  error : option string
}.

Record VisualResult : Type := {
  image_data : option bytes;
  metadata : VisualMetadata
}.

Definition starts_with (c : ascii) (word : string) : bool :=
  match word with
  | String c' _ => Ascii.eqb c c'
  | EmptyString => false
  end.

(** [', '.join(brand_colors)]: the items must all be strings. *)
Definition join_colors (brand_colors : pyval) : result string :=
  items <- iter brand_colors;;
  match all_str items with
  | Some colors => Ok (join ", " colors)
  | None => Raise (TypeError "sequence item: expected str instance")
  end.

(** [_create_image_prompt] *)
Definition _create_image_prompt (text_content : string)
           (brand_guidelines style_preferences : pyval) : result ImagePrompt :=
  brand_colors <- method_get brand_guidelines "colors" (VList []);;
  brand_style <- method_get brand_guidelines "style" (VStr "modern");;
  mood <- method_get style_preferences "mood" (VStr "neutral");;
  let key_concepts :=
    join " " (filter (fun word => negb (starts_with "#"%char word)
                                  && negb (starts_with "@"%char word))
                     (split text_content)) in
  colors <- (if truthy brand_colors then join_colors brand_colors
             else Ok "brand appropriate");;
  Ok {| key_concepts := key_concepts;
        brand_style := brand_style;
        color_scheme := colors;
        mood := mood |}.

(** [_generate_image], for the [i]-th request: no client, an error of the
    call or of the decoding, and an empty response all give [None]. *)
Definition _generate_image (self : agent) (i : nat) (prompt : ImagePrompt)
  : option bytes :=
  match client self with
  | None => None
  | Some api =>
      match api i prompt with
      | Raise _ => None
      | Ok [] => None
      | Ok (b64_json :: _) =>
          match b64decode self b64_json with
          | Ok image_data => Some image_data
          | Raise _ => None
          end
      end
  end.

(** [not image_data] on [Optional[bytes]] *)
Definition no_data (image_data : option bytes) : bool :=
  match image_data with
  | None | Some [] => true
  | Some _ => false
  end.

(** [_process_image]: when the processing raises, the original image data
    is returned. *)
Definition _process_image (self : agent) (image_data : bytes) (platform_specs : pyval)
  : option bytes :=
  if no_data (Some image_data) then None
  else
    match (target_size <- method_get platform_specs "size" (VList [VInt 1024; VInt 1024]);;
           pil_pipeline self image_data target_size) with
    | Ok processed => Some processed
    | Raise _ => Some image_data
    end.

(** [_generate_mock_image] *)
Definition _generate_mock_image (self : agent) : bytes := mock_image self.

Definition or_empty (o : option pyval) : pyval :=
  match o with Some v => v | None => VDict [] end.

(** The [try] block of [process]. *)
Definition try_generate (self : agent) (i : nat) (text_content : string)
           (brand_guidelines style_preferences platform_specs : pyval)
  : result VisualResult :=
  image_prompt <- _create_image_prompt text_content brand_guidelines style_preferences;;
  match _generate_image self i image_prompt with
  | Some (b :: bs) =>
      let processed_image := _process_image self (b :: bs) platform_specs in
      Ok {| image_data := processed_image;
            metadata := {| prompt_used := Some image_prompt;
                           meta_platform_specs := Some platform_specs;
                           generation_successful := true;
                           error := None |} |}
  | _ =>
      Ok {| image_data := Some (_generate_mock_image self);
            metadata := {| prompt_used := Some image_prompt;
                           meta_platform_specs := Some platform_specs;
                           generation_successful := false;
                           error := Some "Image generation failed - using placeholder" |} |}
  end.

(** [process], for the [i]-th call. *)
Definition process (self : agent) (i : nat) (input_data : VisualInput)
  : result VisualResult :=
  if negb (BaseAgent.validate_input (keys input_data) ["text_content"; "brand_guidelines"])
  then Raise (ValueError "Invalid input data")
  else
    match text_content input_data, brand_guidelines input_data with
    | Some text_content, Some brand_guidelines =>
        let style_preferences := or_empty (style_preferences input_data) in
        let platform_specs := or_empty (platform_specs input_data) in
        match try_generate self i text_content brand_guidelines
                           style_preferences platform_specs with
        | Ok r => Ok r
        | Raise e =>
            let error_msg := "Error in image generation: " ++ exn_str e in
            Ok {| image_data := Some (_generate_mock_image self);
                  metadata := {| prompt_used := None;
                                 meta_platform_specs := None;
                                 generation_successful := false;
                                 error := Some error_msg |} |}
        end
    | _, _ => Raise (ValueError "Invalid input data")
    end.

End VisualGenerationAgent.

(* ================================================================= *)
(** ** [orchestrator_agent.py] *)

Module OrchestratorAgent.

Import ContentAnalysisAgent.
Module TG := TextGenerationAgent.
Module VG := VisualGenerationAgent.

(** A call of a sub-agent's [process]. *)
Inductive event : Type :=
| CallAnalysis
| CallText
| CallVisual (i : nat).

(** A computation that may raise, together with the sub-agent calls it made
    up to its return or its error. *)
Definition M (A : Type) : Type := (list event * result A)%type.

Definition ret {A} (a : A) : M A := ([], Ok a).
Definition raise {A} (e : exn) : M A := ([], Raise e).
Definition lift {A} (r : result A) : M A := ([], r).
Definition call {A} (ev : event) (r : result A) : M A := ([ev], r).

Definition mbind {A B} (m : M A) (k : A -> M B) : M B :=
  match m with
  | (t, Ok a) => let (t', r) := k a in ((t ++ t')%list, r)
  | (t, Raise e) => (t, Raise e)
  end.

Notation "x <~ c1 ;; c2" := (mbind c1 (fun x => c2))
  (at level 61, c1 at next level, right associativity).

(** The orchestrator with its sub-agents, as set up by [_initialize_agents];
    each sub-agent is its [process] method.  [visual_generator] is given the
    position of the call in the run. *)
Record agent : Type := {
  platform_configs : list (string * pyval);
  content_analyzer : list (string * pyval) -> result AnalysisResults;
  text_generator : TG.TextInput -> result TG.TextContent;
  visual_generator : nat -> VG.VisualInput -> result VG.VisualResult;
  timestamp : string
}.

(** [_initialize_agents] *)
Definition _initialize_agents (platform_configs : list (string * pyval))
           (analyzer : ContentAnalysisAgent.agent) (text : TG.agent)
           (visual : VG.agent) (now : string) : agent :=
  {| platform_configs := platform_configs;
     content_analyzer := ContentAnalysisAgent.process analyzer;
     text_generator := TG.process text;
     visual_generator := VG.process visual;
     timestamp := now |}.

Record PostMetadata : Type := {
  text_metadata : TG.TextMetadata;
  visual_metadata : option VG.VisualMetadata;
  analysis_context : AnalysisResults
}.

Record PostPackage : Type := {
  text : string;
  visual : option bytes;
  metadata : PostMetadata
}.

Record Statistics : Type := {
  total_posts : Z;
  posts_with_visuals : Z;
  generation_timestamp : string
}.

Record ContentPackage : Type := {
  posts : list PostPackage;
  statistics : Statistics
}.

(** [_analyze_content] *)
Definition _analyze_content (self : agent) (existing_posts : pyval) : M AnalysisResults :=
  let analysis_input := [("posts", existing_posts)] in
  call CallAnalysis (content_analyzer self analysis_input).

(** [_generate_text_content]: the parameters are read before the call; an
    error of the call is logged and raised again. *)
Definition _generate_text_content (self : agent) (analysis_results : AnalysisResults)
           (generation_params platform : pyval) : M TG.TextContent :=
  num_posts <~ lift (method_get generation_params "num_posts" (VInt 1));;
  post_type <~ lift (method_get generation_params "post_type" (VStr "general"));;
  let text_input :=
    {| TG.brand_analysis := Some analysis_results;
       TG.num_posts := Some num_posts;
       TG.post_type := Some post_type;
       TG.target_platform := Some platform |} in
  call CallText (text_generator self text_input).

(** [_get_platform_specs]: the platform is looked up as a dictionary key. *)
Definition _get_platform_specs (self : agent) (platform : pyval) : result pyval :=
  if negb (hashable platform) then Raise (TypeError "unhashable type")
  else match platform with
       | VStr name => Ok (dict_get_default name (platform_configs self) (VDict []))
       | _ => Ok (VDict [])
       end.

(** [_get_style_preferences] *)
Definition _get_style_preferences (text_metadata : TG.TextMetadata) : pyval :=
  VDict [ ("mood", TG.meta_post_type text_metadata);
          ("style", VStr "modern");
          ("composition", VStr "social_media_optimized") ].

(** The body of the loop of [_generate_visual_content] for the post at
    position [i]: the entry appended to [visual_content] is the result of
    the call, or [None] when the call raises. *)
Definition visual_attempt (self : agent) (text_content : TG.TextContent)
           (brand_guidelines platform_specs : pyval) (i : nat) (post : string)
  : option VG.VisualResult :=
  let visual_input :=
    {| VG.text_content := Some post;
       VG.brand_guidelines := Some brand_guidelines;
       VG.style_preferences := Some (_get_style_preferences (TG.metadata text_content));
       VG.platform_specs := Some platform_specs |} in
  match visual_generator self i visual_input with
  | Ok visual_result => Some visual_result
  | Raise _ => None
  end.

(** The loop of [_generate_visual_content] from position [i] on. *)
Fixpoint visual_loop (self : agent) (text_content : TG.TextContent)
         (brand_guidelines platform_specs : pyval) (i : nat) (posts : list string)
  : list (option VG.VisualResult) :=
  match posts with
  | [] => []
  | post :: rest =>
      visual_attempt self text_content brand_guidelines platform_specs i post
      :: visual_loop self text_content brand_guidelines platform_specs (S i) rest
  end.

(** [_generate_visual_content] *)
Definition _generate_visual_content (self : agent) (text_content : TG.TextContent)
           (brand_guidelines platform : pyval) : M (list (option VG.VisualResult)) :=
  platform_specs <~ lift (_get_platform_specs self platform);;
  let posts := TG.generated_posts text_content in
  (map CallVisual (seq 0 (List.length posts)),
   Ok (visual_loop self text_content brand_guidelines platform_specs 0 posts)).

(** The [visual] entry of a post package. *)
Definition visual_field (visual : option VG.VisualResult) : option bytes :=
  match visual with
  | Some v => if VG.generation_successful (VG.metadata v) then VG.image_data v else None
  | None => None
  end.

Definition is_not_None {A} (o : option A) : bool :=
  match o with Some _ => true | None => false end.

(** [_compile_content_package] *)
Definition _compile_content_package (self : agent) (text_content : TG.TextContent)
           (visual_content : list (option VG.VisualResult))
           (analysis_results : AnalysisResults) : ContentPackage :=
  let posts :=
    map (fun tv =>
           {| text := fst tv;
              visual := visual_field (snd tv);
              metadata := {| text_metadata := TG.metadata text_content;
                             visual_metadata := option_map VG.metadata (snd tv);
                             analysis_context := analysis_results |} |})
        (combine (TG.generated_posts text_content) visual_content) in
  {| posts := posts;
     statistics :=
       {| total_posts := len posts;
          posts_with_visuals := len (filter (fun p => is_not_None (visual p)) posts);
          generation_timestamp := timestamp self |} |}.

Definition required_fields : list string :=
  ["existing_posts"; "brand_guidelines"; "generation_params"; "platform"].

(** [input_data[key]] *)
Definition item (input_data : list (string * pyval)) (key : string) : result pyval :=
  match dict_get key input_data with
  | Some v => Ok v
  | None => Raise (KeyError key)
  end.

(** The stages of a run, with the three text, visual and compilation steps
    of [process] after the analysis. *)
Definition generate (self : agent) (input_data : list (string * pyval))
           (analysis_results : AnalysisResults) : M ContentPackage :=
  generation_params <~ lift (item input_data "generation_params");;
  platform <~ lift (item input_data "platform");;
  text_content <~ _generate_text_content self analysis_results generation_params platform;;
  brand_guidelines <~ lift (item input_data "brand_guidelines");;
  visual_content <~ _generate_visual_content self text_content brand_guidelines platform;;
  ret (_compile_content_package self text_content visual_content analysis_results).

(** [process]: every error inside the [try] block is logged and raised
    again. *)
Definition process (self : agent) (input_data : list (string * pyval)) : M ContentPackage :=
  if negb (BaseAgent.validate_input (map fst input_data) required_fields)
  then raise (ValueError "Invalid input data")
  else
    existing_posts <~ lift (item input_data "existing_posts");;
    analysis_results <~ _analyze_content self existing_posts;;
    generate self input_data analysis_results.

End OrchestratorAgent.

Module CA := ContentAnalysisAgent.
Module TG := TextGenerationAgent.
Module VG := VisualGenerationAgent.
Module OA := OrchestratorAgent.

(* ================================================================= *)
(** ** [main.py] *)

Module Main.

(** What is written to a file: the JSON document of a package, which holds
    the text and the metadata of every post and the statistics, or the bytes
    of an image. *)
Inductive content : Type :=
| Json (posts : list (string * OA.PostMetadata)) (statistics : OA.Statistics)
| Binary (image : bytes).

(** A file after the run: written to its end, or opened for writing and
    left with whatever had been written when the writing raised. *)
Inductive file : Type :=
| Complete (c : content)
| Partial.

(** The file system.  [makedirs] creates the output directory; [open_w] is
    [open(path, 'w')] or [open(path, 'wb')], which creates the file or
    empties it; [write] is what happens inside the [with] block and at its
    end, [json.dump] or [f.write] and the closing of the file.  Each of them
    succeeds or raises; [json.dump] also raises on a value it cannot
    serialise. *)
Record filesystem : Type := {
  makedirs : string -> result unit;
  open_w : string -> result unit;
  write : string -> content -> result unit
}.

Definition output_dir : string := "generated_content".

(** [os.path.join] *)
Definition path_join (dir name : string) : string := dir ++ "/" ++ name.

(** [str(i)] for an index *)
Definition str_of_nat (i : nat) : string :=
  DecimalString.NilZero.string_of_uint (Nat.to_uint i).

Definition output_file (timestamp : string) : string :=
  path_join output_dir ("content_package_" ++ timestamp ++ ".json").

Definition image_file (timestamp : string) (i : nat) : string :=
  path_join output_dir ("image_" ++ timestamp ++ "_" ++ str_of_nat i ++ ".jpg").

(** One [with open(path, ...) as f] block that writes [c]: nothing is left
    when the file cannot be opened, an incomplete file when the writing
    raises. *)
Definition write_file (fs : filesystem) (path : string) (c : content)
  : list (string * file) * result unit :=
  match open_w fs path with
  | Raise e => ([], Raise e)
  | Ok _ =>
      match write fs path c with
      | Raise e => ([(path, Partial)], Raise e)
      | Ok _ => ([(path, Complete c)], Ok tt)
      end
  end.

(** The loop over the posts from position [i] on, as the list of the files
    it leaves: a post with a non-empty visual is written to its image file;
    an error of the opening or of the writing is printed and the loop
    continues. *)
Fixpoint save_images (fs : filesystem) (timestamp : string) (i : nat)
         (posts : list OA.PostPackage) : list (string * file) :=
  match posts with
  | [] => []
  | post :: rest =>
      (match OA.visual post with
       | Some (b :: bs) => fst (write_file fs (image_file timestamp i) (Binary (b :: bs)))
       | _ => []
       end ++ save_images fs timestamp (S i) rest)%list
  end.

(** [save_content]: the files it leaves and the outcome.  An error of the
    creation of the directory, or of the opening or the writing of the JSON
    file, is raised to the caller; the images are written only after the
    JSON file. *)
Definition save_content (fs : filesystem) (timestamp : string)
           (content_package : OA.ContentPackage)
  : list (string * file) * result unit :=
  match makedirs fs output_dir with
  | Raise e => ([], Raise e)
  | Ok _ =>
      let serializable_package :=
        Json (map (fun post => (OA.text post, OA.metadata post))
                  (OA.posts content_package))
             (OA.statistics content_package) in
      match write_file fs (output_file timestamp) serializable_package with
      | (files, Raise e) => (files, Raise e)
      | (files, Ok _) =>
          ((files ++ save_images fs timestamp 0 (OA.posts content_package))%list, Ok tt)
      end
  end.

End Main.

(* ================================================================= *)
(** ** Notions used in the statements *)

(** Outcomes of a run of the orchestrator. *)
Module Run.

(** The request carries a non-nil existing-posts sequence, brand
    guidelines, generation parameters and a platform identifier. *)
Definition carries_required (input_data : list (string * pyval)) : Prop :=
  (exists existing_posts,
      dict_get "existing_posts" input_data = Some existing_posts /\
      existing_posts <> VNone) /\
  dict_get "brand_guidelines" input_data <> None /\
  dict_get "generation_params" input_data <> None /\
  dict_get "platform" input_data <> None.

(** The outcome of a run that stops at validation: the error, and no
    sub-agent call. *)
Definition validation_error : OA.M OA.ContentPackage :=
  ([], Raise (ValueError "Invalid input data")).



End Run.

(** Failures of the visual generation. *)
Module Visual.

(** The reasons for which the generation of an image fails, for the [i]-th
    call on a given input: the prompt cannot be built, no credential is
    configured, the call to the image endpoint raises, its response is
    empty, the payload cannot be decoded, or the decoded payload is empty. *)
Inductive generation_failure (self : VG.agent) (i : nat)
          (text_content : string) (brand_guidelines style_preferences : pyval) : Prop :=
| PromptError e :
    VG._create_image_prompt text_content brand_guidelines style_preferences = Raise e ->
    generation_failure self i text_content brand_guidelines style_preferences
| NoCredential prompt :
    VG._create_image_prompt text_content brand_guidelines style_preferences = Ok prompt ->
    VG.client self = None ->
    generation_failure self i text_content brand_guidelines style_preferences
| CallError prompt api e :
    VG._create_image_prompt text_content brand_guidelines style_preferences = Ok prompt ->
    VG.client self = Some api ->
    api i prompt = Raise e ->
    generation_failure self i text_content brand_guidelines style_preferences
| EmptyResponse prompt api :
    VG._create_image_prompt text_content brand_guidelines style_preferences = Ok prompt ->
    VG.client self = Some api ->
    api i prompt = Ok [] ->
    generation_failure self i text_content brand_guidelines style_preferences
| DecodeError prompt api b64_json rest e :
    VG._create_image_prompt text_content brand_guidelines style_preferences = Ok prompt ->
    VG.client self = Some api ->
    api i prompt = Ok (b64_json :: rest) ->
    VG.b64decode self b64_json = Raise e ->
    generation_failure self i text_content brand_guidelines style_preferences
| EmptyPayload prompt api b64_json rest :
    VG._create_image_prompt text_content brand_guidelines style_preferences = Ok prompt ->
    VG.client self = Some api ->
    api i prompt = Ok (b64_json :: rest) ->
    VG.b64decode self b64_json = Ok [] ->
    generation_failure self i text_content brand_guidelines style_preferences.

(** The post-processing of [_process_image] raises on the raw image. *)
Definition post_processing_raises (self : VG.agent) (raw : bytes) (platform_specs : pyval)
  : Prop :=
  exists e,
    (target_size <- method_get platform_specs "size" (VList [VInt 1024; VInt 1024]);;
     VG.pil_pipeline self raw target_size) = Raise e.

End Visual.

(** Bundles of a compiled package. *)
Module Package.



End Package.

(** Marker counts of the tone analysis. *)
Module Tone.

(** Some tone marker occurs in some post. *)
Definition marker_found (posts : list string) : bool :=
  existsb (fun post =>
             existsb (fun tm => existsb (fun marker => contains marker (lower post)) (snd tm))
                     CA.tone_markers)
          posts.

(** The number of markers of one tone that occur across the posts. *)
Definition count (markers : list string) (posts : list string) : Z :=
  CA.sumZ (map (fun post => CA.marker_hits markers (lower post)) posts).

Definition professional := ["therefore"; "consequently"; "furthermore"; "moreover"].
Definition casual := ["hey"; "cool"; "awesome"; "yeah"].
Definition formal := ["hereby"; "accordingly"; "pursuant"; "whilst"].
Definition friendly := ["thanks"; "please"; "welcome"; "happy"].

Definition table (a b c d : Z) : list (string * Z) :=
  [("professional", a); ("casual", b); ("formal", c); ("friendly", d)].

End Tone.

(** The tone weights in binary64.  The weights are Python floats: the
    quotient of two counts is rounded to the nearest binary64 number.  This
    is the computation of [_analyze_tone] carried out with the kernel's
    IEEE 754 binary64 floats, to measure what the exact model leaves out. *)
Module Binary64.

(** The float of a marker count. *)
Definition of_count (z : Z) : float := PrimFloat.of_uint63 (Uint63.of_Z z).

(** [_analyze_tone] with float division. *)
Definition _analyze_tone (posts : list string) : list (string * float) :=
  let scores := CA.tone_scores posts in
  map (fun ts => (fst ts,
                  PrimFloat.div (of_count (snd ts))
                                (of_count (CA.total_scores scores))))
      scores.




End Binary64.

(** Updates of a configuration. *)
Module Config.

(** The last value bound to a key in a list of updates. *)
Fixpoint last_binding {V} (k : string) (updates : list (string * V)) : option V :=
  match updates with
  | [] => None
  | (k', v) :: rest =>
      match last_binding k rest with
      | Some v' => Some v'
      | None => if String.eqb k k' then Some v else None
      end
  end.

End Config.

(** Texts of the text generation agent. *)
Module Text.

Definition first_char (s : string) : option ascii :=
  hd_error (list_ascii_of_string s).

Definition last_char (s : string) : option ascii :=
  hd_error (rev (list_ascii_of_string s)).

(** A text is trimmed when it neither starts nor ends with whitespace. *)
Definition trimmed (s : string) : Prop :=
  (forall c, first_char s = Some c -> is_space c = false) /\
  (forall c, last_char s = Some c -> is_space c = false).

(** All four keys of the input of [process] are present. *)
Definition complete (input_data : TG.TextInput) : Prop :=
  TG.brand_analysis input_data <> None /\ TG.num_posts input_data <> None /\
  TG.post_type input_data <> None /\ TG.target_platform input_data <> None.

End Text.

(** Words of a prompt and generated images. *)
Module Words.

(** A word: a non-empty text without whitespace. *)
Definition word (w : string) : Prop :=
  w <> "" /\ forall c, In c (list_ascii_of_string w) -> is_space c = false.

(** A hashtag or a mention. *)
Definition is_tag (w : string) : bool :=
  VG.starts_with "#"%char w || VG.starts_with "@"%char w.

(** The image endpoint returned [raw], a non-empty payload, for the prompt. *)
Definition generated (self : VG.agent) (i : nat) (prompt : VG.ImagePrompt)
           (raw : bytes) : Prop :=
  exists api b64_json rest,
    VG.client self = Some api /\
    api i prompt = Ok (b64_json :: rest) /\
    VG.b64decode self b64_json = Ok raw /\
    raw <> [].

End Words.

(** Nouns and their counts. *)
Module Topics.

(** The noun tokens of the posts, in the order of the text: the words that
    [_extract_topics] counts. *)
Definition nouns (self : CA.agent) (posts : list string) : list string :=
  flat_map (fun post =>
              let tokens := CA.word_tokenize self (lower post) in
              map fst (filter (fun wp => String.prefix "NN" (snd wp)
                                         || String.prefix "NNP" (snd wp))
                              (CA.pos_tag self tokens))) posts.

(** How often a word occurs in a list. *)
Definition occurrences (words : list string) (w : string) : Z :=
  Z.of_nat (count_occ string_dec words w).

(** A counter holds, for the words seen so far, each word once with the
    number of its occurrences. *)
Definition counts (c : list (string * Z)) (seen : list string) : Prop :=
  NoDup (map fst c) /\
  forall w, dict_get w c
            = if in_dec string_dec w seen then Some (occurrences seen w) else None.

End Topics.

Module Environment.

(** The orchestrator as [OrchestratorAgent.__init__] builds it in an
    environment whose [OPENAI_API_KEY] is [api_key]: both generation agents
    read the same variable when they are constructed. *)
Definition orchestrator (platform_configs : list (string * pyval))
           (analyzer : CA.agent)
           (OpenAI_chat : string -> result TG.OpenAIClient)
           (OpenAI_images : string -> result VG.OpenAIClient)
           (b64decode : string -> result bytes)
           (pil_pipeline : bytes -> pyval -> result bytes)
           (mock_image : bytes) (now : string)
           (api_key : option string) : OA.agent :=
  OA._initialize_agents platform_configs analyzer
    (TG._initialize_llm api_key OpenAI_chat)
    (VG._initialize_image_generator api_key OpenAI_images b64decode pil_pipeline mock_image)
    now.

End Environment.

(* ================================================================= *)
(** ** A concrete installation without credentials

    No API key is configured, so neither generation agent has a client; the
    NLP components are replaced by simple tokenizers.  It serves to run the
    pipeline on concrete requests. *)

Module Demo.

Definition analyzer : CA.agent :=
  {| CA.polarity_scores := fun _ => {| CA.pos := 0; CA.neg := 0; CA.neu := 1; CA.compound := 0 |};
     CA.sent_tokenize := fun post => [post];
     CA.word_tokenize := split;
     CA.pos_tag := map (fun w => (w, "NN")) |}.

Definition text_agent : TG.agent := {| TG.client := None |}.

Definition placeholder_jpeg : bytes := [xff; xd8; xff; xd9].

Definition visual_agent : VG.agent :=
  {| VG.client := None;
     VG.b64decode := fun _ => Raise (ExternalError "Incorrect padding");
     VG.pil_pipeline := fun _ _ => Raise (ExternalError "cannot identify image file");
     VG.mock_image := placeholder_jpeg |}.

Definition platform_configs : list (string * pyval) :=
  [ ("instagram", VDict [("size", VList [VInt 1080; VInt 1080]);
                         ("aspect_ratio", VStr "1:1");
                         ("max_text_length", VInt 2200)]);
    ("twitter", VDict [("size", VList [VInt 1200; VInt 675]);
                       ("aspect_ratio", VStr "16:9");
                       ("max_text_length", VInt 280)]) ].

Definition orchestrator : OA.agent :=
  OA._initialize_agents platform_configs analyzer text_agent visual_agent
                        "2024-01-01T00:00:00".

Definition brand_guidelines : pyval :=
  VDict [("colors", VList [VStr "#FF5733"; VStr "#33FF57"]); ("style", VStr "modern")].

Definition request (existing_posts generation_params : pyval) : list (string * pyval) :=
  [ ("existing_posts", existing_posts);
    ("brand_guidelines", brand_guidelines);
    ("generation_params", generation_params);
    ("platform", VStr "instagram") ].

Definition posts : pyval :=
  VList [VStr "Thanks so much, hope you're happy with the update!";
         VStr "Hey, our new product line is awesome"].

Definition params (num_posts : pyval) : pyval :=
  VDict [("num_posts", num_posts); ("post_type", VStr "promotional")].

Definition two_posts : list (string * pyval) := request posts (params (VInt 2)).

Definition three_posts : list (string * pyval) := request posts (params (VInt 3)).

Definition four_calls : list OA.event :=
  [OA.CallAnalysis; OA.CallText; OA.CallVisual 0; OA.CallVisual 1].

(** An orchestrator whose visual sub-agent raises on its second call. *)
Definition flaky_orchestrator : OA.agent :=
  {| OA.platform_configs := platform_configs;
     OA.content_analyzer := CA.process analyzer;
     OA.text_generator := TG.process text_agent;
     OA.visual_generator :=
       fun i input_data =>
         if (i =? 1)%nat then Raise (ExternalError "out of memory")
         else VG.process visual_agent i input_data;
     OA.timestamp := "2024-01-01T00:00:00" |}.

(** A language model that fails on its second request. *)
Definition flaky_text_agent : TG.agent :=
  {| TG.client :=
       Some (fun i _ =>
               if (i =? 1)%nat then Raise (ExternalError "rate limit exceeded")
               else Ok "  Fresh ideas for your feed #brand  ") |}.

(** An image endpoint that answers its first request and fails afterwards;
    the processing of the image succeeds. *)
Definition live_visual_agent : VG.agent :=
  {| VG.client :=
       Some (fun i _ =>
               if (i =? 0)%nat then Ok ["/9j/2Q=="]
               else Raise (ExternalError "service unavailable"));
     VG.b64decode := fun _ => Ok [xff; xd8; xff; xd9];
     VG.pil_pipeline := fun raw _ => Ok (raw ++ [x00])%list;
     VG.mock_image := placeholder_jpeg |}.

(** An image endpoint whose image cannot be processed. *)
Definition raw_visual_agent : VG.agent :=
  {| VG.client := Some (fun _ _ => Ok ["iVBO"]);
     VG.b64decode := fun _ => Ok [x89; x50; x4e];
     VG.pil_pipeline := fun _ _ => Raise (ExternalError "cannot identify image file");
     VG.mock_image := placeholder_jpeg |}.

Definition live_orchestrator : OA.agent :=
  OA._initialize_agents platform_configs analyzer flaky_text_agent live_visual_agent
                        "2024-01-01T00:00:00".

Definition visual_input : VG.VisualInput :=
  {| VG.text_content := Some "Big launch today #launch @everyone";
     VG.brand_guidelines := Some brand_guidelines;
     VG.style_preferences := None;
     VG.platform_specs := Some (VDict [("size", VList [VInt 1080; VInt 1080])]) |}.

Definition text_input (num_posts : pyval) : TG.TextInput :=
  {| TG.brand_analysis :=
       Some {| CA.overall_sentiment :=
                 {| CA.positive := 0; CA.negative := 0; CA.neutral := 1;
                    CA.sentiment_compound := 0 |};
               CA.tone_analysis := CA._analyze_tone ["Thanks, happy to help"];
               CA.style_characteristics :=
                 {| CA.avg_sentence_length := 4; CA.vocabulary_richness := 1;
                    CA.emoji_usage := 0 |};
               CA.common_topics := ["help"];
               CA.language_metrics :=
                 {| CA.avg_post_length := 4; CA.avg_word_length := 4;
                    CA.question_frequency := 0; CA.exclamation_frequency := 0 |} |};
     TG.num_posts := Some num_posts;
     TG.post_type := Some (VStr "promotional");
     TG.target_platform := Some (VStr "instagram") |}.


Definition plain_posts : list string := ["Our new product line launches today"].

(** A service that rejects the key: the client is constructed, the
    connection test and every request fail. *)
Definition rejected_chat (key : string) : result TG.OpenAIClient :=
  Ok {| TG.models_list := Raise (ExternalError "Incorrect API key provided");
        TG.chat := fun _ _ => Raise (ExternalError "Incorrect API key provided") |}.

Definition rejected_images (key : string) : result VG.OpenAIClient :=
  Ok {| VG.models_list := Raise (ExternalError "Incorrect API key provided");
        VG.images_generate :=
          fun _ _ => Raise (ExternalError "Incorrect API key provided") |}.

Definition environment (api_key : option string) : OA.agent :=
  Environment.orchestrator platform_configs analyzer rejected_chat rejected_images
    (VG.b64decode visual_agent) (VG.pil_pipeline visual_agent) placeholder_jpeg
    "2024-01-01T00:00:00" api_key.

(** The input of the text agent for three promotional posts from a
    profile. *)
Definition input_of (analysis : CA.AnalysisResults) : TG.TextInput :=
  {| TG.brand_analysis := Some analysis;
     TG.num_posts := Some (VInt 3);
     TG.post_type := Some (VStr "promotional");
     TG.target_platform := Some (VStr "instagram") |}.

(** The package of a run whose first post gets an image and whose second
    text request fails. *)
Definition package : OA.ContentPackage :=
  match OA.process live_orchestrator two_posts with
  | (_, Ok p) => p
  | (_, Raise _) =>
      {| OA.posts := [];
         OA.statistics := {| OA.total_posts := 0; OA.posts_with_visuals := 0;
                             OA.generation_timestamp := "" |} |}
  end.

(** A disk on which files can be created and nothing can be written into
    a JSON file. *)
Definition full_disk : Main.filesystem :=
  {| Main.makedirs := fun _ => Ok tt;
     Main.open_w := fun _ => Ok tt;
     Main.write := fun _ c =>
                     match c with
                     | Main.Json _ _ => Raise (ExternalError "No space left on device")
                     | Main.Binary _ => Ok tt
                     end |}.

End Demo.

(* ================================================================= *)
(** ** Properties of the orchestrator *)

Section Orchestrator.

Variable self : OA.agent.

Lemma validate_input_true keys required :
  BaseAgent.validate_input keys required = true <->
  forall field, In field required -> dict_mem field keys = true.
Proof.
  unfold BaseAgent.validate_input.
  induction required as [|f required IH]; simpl.
  - split; [intros _ field [] | reflexivity].
  - destruct (dict_mem f keys) eqn:Hf; simpl.
    + rewrite IH. split.
      * intros H field [<-|Hin]; auto.
      * intros H field Hin. apply H. now right.
    + split; [discriminate|].
      intros H. specialize (H f (or_introl eq_refl)). congruence.
Qed.

Lemma dict_mem_get {V} k (d : list (string * V)) :
  dict_mem k (map fst d) = true <-> exists v, dict_get k d = Some v.
Proof.
  unfold dict_mem. induction d as [|[k' v] d IH]; simpl.
  - split; [discriminate | intros [v H]; discriminate].
  - destruct (String.eqb k k'); simpl.
    + split; [eauto | reflexivity].
    + exact IH.
Qed.

Lemma dict_mem_get_none {V} k (d : list (string * V)) :
  dict_mem k (map fst d) = false <-> dict_get k d = None.
Proof.
  destruct (dict_mem k (map fst d)) eqn:Hm.
  - apply dict_mem_get in Hm as [v Hv]. rewrite Hv. split; discriminate.
  - split; [|reflexivity]. intros _.
    destruct (dict_get k d) eqn:Hg; [|reflexivity].
    assert (dict_mem k (map fst d) = true) by (apply dict_mem_get; eauto).
    congruence.
Qed.

(** A request passes validation exactly when the four required keys are
    present. *)
Lemma validate_request (input_data : list (string * pyval)) :
  BaseAgent.validate_input (map fst input_data) OA.required_fields = true <->
  (exists existing_posts brand_guidelines generation_params platform,
      dict_get "existing_posts" input_data = Some existing_posts /\
      dict_get "brand_guidelines" input_data = Some brand_guidelines /\
      dict_get "generation_params" input_data = Some generation_params /\
      dict_get "platform" input_data = Some platform).
Proof.
  rewrite validate_input_true. unfold OA.required_fields. split.
  - intros H.
    destruct (proj1 (dict_mem_get "existing_posts" input_data)) as [a Ha];
      [apply H; simpl; tauto|].
    destruct (proj1 (dict_mem_get "brand_guidelines" input_data)) as [b Hb];
      [apply H; simpl; tauto|].
    destruct (proj1 (dict_mem_get "generation_params" input_data)) as [c Hc];
      [apply H; simpl; tauto|].
    destruct (proj1 (dict_mem_get "platform" input_data)) as [d Hd];
      [apply H; simpl; tauto|].
    now exists a, b, c, d.
  - intros (a & b & c & d & Ha & Hb & Hc & Hd) field Hin.
    simpl in Hin.
    destruct Hin as [<-|[<-|[<-|[<-|[]]]]]; apply dict_mem_get; eauto.
Qed.

(** The stages a completed run went through. *)
Lemma process_completed input_data t package :
  OA.process self input_data = (t, Ok package) ->
  exists existing_posts brand_guidelines generation_params platform
         analysis_results text_content visual_content t_text t_visual,
    dict_get "existing_posts" input_data = Some existing_posts /\
    dict_get "brand_guidelines" input_data = Some brand_guidelines /\
    dict_get "generation_params" input_data = Some generation_params /\
    dict_get "platform" input_data = Some platform /\
    OA.content_analyzer self [("posts", existing_posts)] = Ok analysis_results /\
    OA._generate_text_content self analysis_results generation_params platform
      = (t_text, Ok text_content) /\
    OA._generate_visual_content self text_content brand_guidelines platform
      = (t_visual, Ok visual_content) /\
    package = OA._compile_content_package self text_content visual_content analysis_results /\
    t = (OA.CallAnalysis :: t_text ++ t_visual)%list.
Proof.
  unfold OA.process.
  destruct (BaseAgent.validate_input _ _) eqn:Hv; simpl; [|discriminate].
  apply validate_request in Hv as (a & b & c & d & Ha & Hb & Hc & Hd).
  unfold OA.item, OA.generate, OA._analyze_content, OA.call, OA.lift.
  rewrite Ha. simpl.
  destruct (OA.content_analyzer self _) as [analysis|e] eqn:Han; simpl; [|discriminate].
  unfold OA.item. rewrite Hc, Hd, Hb. simpl.
  destruct (OA._generate_text_content self analysis c d) as [t2 [tc|e]] eqn:Htext;
    simpl; [|discriminate].
  destruct (OA._generate_visual_content self tc b d) as [t3 [vc|e]] eqn:Hvis;
    simpl; [|discriminate].
  intros H. injection H as <- <-.
  exists a, b, c, d, analysis, tc, vc, t2, t3.
  rewrite app_nil_r. repeat split; auto.
Qed.

Lemma visual_loop_length tc bg specs i posts :
  List.length (OA.visual_loop self tc bg specs i posts) = List.length posts.
Proof.
  revert i. induction posts as [|post rest IH]; intros i; simpl; [reflexivity|].
  now rewrite IH.
Qed.

Lemma visual_loop_nth tc bg specs posts : forall i k post,
  nth_error posts k = Some post ->
  nth_error (OA.visual_loop self tc bg specs i posts) k
  = Some (OA.visual_attempt self tc bg specs (i + k) post).
Proof.
  induction posts as [|p rest IH]; intros i k post Hk.
  - destruct k; discriminate.
  - destruct k as [|k]; simpl in *.
    + injection Hk as ->. now rewrite Nat.add_0_r.
    + rewrite (IH (S i) k post Hk). do 2 f_equal. lia.
Qed.

Lemma generate_visual_content_inv tc bg platform t visual_content :
  OA._generate_visual_content self tc bg platform = (t, Ok visual_content) ->
  exists specs,
    OA._get_platform_specs self platform = Ok specs /\
    visual_content = OA.visual_loop self tc bg specs 0 (TG.generated_posts tc) /\
    t = map OA.CallVisual (seq 0 (List.length (TG.generated_posts tc))).
Proof.
  unfold OA._generate_visual_content, OA.lift, OA.mbind.
  destruct (OA._get_platform_specs self platform) as [specs|e]; [|discriminate].
  intros H. injection H as <- <-. now exists specs.
Qed.

Lemma compile_texts tc vc analysis :
  List.length vc = List.length (TG.generated_posts tc) ->
  map OA.text (OA.posts (OA._compile_content_package self tc vc analysis))
  = TG.generated_posts tc.
Proof.
  unfold OA._compile_content_package; simpl.
  rewrite map_map; simpl.
  generalize (TG.generated_posts tc) as posts. intros posts. revert vc.
  induction posts as [|p posts IH]; intros [|v vc] Hlen; simpl in *;
    try discriminate; [reflexivity|].
  f_equal. apply IH. lia.
Qed.

(** C1. For every completed run of [process], the visual stage was run on the
    batch that the text stage of this run returned for the request, and it
    returned a sequence with exactly one entry per generated text item, in
    the same order: the entry at position [k] is the outcome of the visual
    call made for the text item at position [k] (absent when that call
    raised), also when there is no text item at all; the posts of the package
    are the text items paired with these entries. *)
Theorem visual_content_aligned input_data t package :
  OA.process self input_data = (t, Ok package) ->
  exists existing_posts brand_guidelines generation_params platform analysis_results
         text_content platform_specs visual_content t_text t_visual,
    dict_get "existing_posts" input_data = Some existing_posts /\
    dict_get "brand_guidelines" input_data = Some brand_guidelines /\
    dict_get "generation_params" input_data = Some generation_params /\
    dict_get "platform" input_data = Some platform /\
    OA.content_analyzer self [("posts", existing_posts)] = Ok analysis_results /\
    OA._generate_text_content self analysis_results generation_params platform
      = (t_text, Ok text_content) /\
    OA._get_platform_specs self platform = Ok platform_specs /\
    OA._generate_visual_content self text_content brand_guidelines platform
      = (t_visual, Ok visual_content) /\
    package = OA._compile_content_package self text_content visual_content analysis_results /\
    t = (OA.CallAnalysis :: t_text ++ t_visual)%list /\
    List.length visual_content = List.length (TG.generated_posts text_content) /\
    (forall k post,
        nth_error (TG.generated_posts text_content) k = Some post ->
        nth_error visual_content k
        = Some (OA.visual_attempt self text_content brand_guidelines platform_specs k post)) /\
    map OA.text (OA.posts package) = TG.generated_posts text_content /\
    t_visual = map OA.CallVisual (seq 0 (List.length (TG.generated_posts text_content))).
Proof.
  intros Hrun.
  apply process_completed in Hrun
    as (a & b & c & d & analysis & tc & vc & t2 & t3 &
        Ha & Hb & Hc & Hd & Han & Htext & Hvis & -> & ->).
  destruct (generate_visual_content_inv _ _ _ _ _ Hvis) as (specs & Hspecs & Hvc & Ht).
  exists a, b, c, d, analysis, tc, specs, vc, t2, t3.
  assert (Hlen : List.length vc = List.length (TG.generated_posts tc))
    by (subst vc; apply visual_loop_length).
  repeat split; auto.
  - intros k post Hk. subst vc.
    now rewrite (visual_loop_nth tc b specs _ 0 k post Hk).
  - now apply compile_texts.
Qed.

End Orchestrator.

(* ================================================================= *)
(** ** Validation and failure of a run *)

Section Validation.

Variable self : OA.agent.

Lemma process_valid_calls_analysis input_data :
  BaseAgent.validate_input (map fst input_data) OA.required_fields = true ->
  exists t r, OA.process self input_data = (OA.CallAnalysis :: t, r).
Proof.
  intros Hv. unfold OA.process. rewrite Hv. simpl.
  apply validate_request in Hv as (a & b & c & d & Ha & Hb & Hc & Hd).
  unfold OA.item, OA._analyze_content, OA.call, OA.lift. rewrite Ha. simpl.
  destruct (OA.content_analyzer self _) as [analysis|e]; simpl.
  - destruct (OA.generate self input_data analysis) as [t r]. eauto.
  - eauto.
Qed.

(** C9, as the code has it. [process] stops with the validation error, having
    called no sub-agent, if and only if one of the keys [existing_posts],
    [brand_guidelines], [generation_params], [platform] is absent from the
    request; the value bound to a present key is not inspected.  When all
    four keys are present the analysis agent is the first one called. *)
Theorem validation_error_iff_key_absent (input_data : list (string * pyval)) :
  (OA.process self input_data = Run.validation_error <->
   exists field, In field OA.required_fields /\ dict_get field input_data = None)
  /\ (OA.process self input_data <> Run.validation_error ->
      exists t r, OA.process self input_data = (OA.CallAnalysis :: t, r)).
Proof.
  assert (Hcases :
    BaseAgent.validate_input (map fst input_data) OA.required_fields = false <->
    exists field, In field OA.required_fields /\ dict_get field input_data = None).
  { split.
    - intros Hv.
      destruct (existsb (fun f => negb (dict_mem f (map fst input_data)))
                        OA.required_fields) eqn:He.
      + apply existsb_exists in He as (f & Hin & Hf).
        exists f. split; [exact Hin|].
        apply dict_mem_get_none. now destruct (dict_mem f (map fst input_data)).
      + assert (BaseAgent.validate_input (map fst input_data) OA.required_fields = true);
          [|congruence].
        apply validate_input_true. intros f Hin.
        destruct (dict_mem f (map fst input_data)) eqn:Hm; [reflexivity|].
        assert (existsb (fun f => negb (dict_mem f (map fst input_data)))
                        OA.required_fields = true); [|congruence].
        apply existsb_exists. exists f. now rewrite Hm.
    - intros (f & Hin & Hf).
      destruct (BaseAgent.validate_input _ _) eqn:Hv; [|reflexivity].
      rewrite validate_input_true in Hv. specialize (Hv f Hin).
      apply dict_mem_get_none in Hf. congruence. }
  destruct (BaseAgent.validate_input (map fst input_data) OA.required_fields) eqn:Hv.
  - destruct (process_valid_calls_analysis input_data Hv) as (t & r & Hrun).
    split; [split|].
    + rewrite Hrun. unfold Run.validation_error. discriminate.
    + intros H. apply Hcases in H. discriminate.
    + intros _. eauto.
  - assert (Hrun : OA.process self input_data = Run.validation_error)
      by (unfold OA.process; now rewrite Hv).
    split; [split|].
    + intros _. now apply Hcases.
    + intros _. exact Hrun.
    + intros H. contradiction.
Qed.

End Validation.

Section Absorption.

Variables (platform_configs : list (string * pyval))
          (analyzer : CA.agent) (text : TG.agent) (visual : VG.agent)
          (now : string).

Let self : OA.agent :=
  OA._initialize_agents platform_configs analyzer text visual now.



End Absorption.

(* ================================================================= *)
(** ** The analysis of an empty sequence of posts *)

Section EmptyPosts.

Variable analyzer : CA.agent.

(** The guarded computations of the analysis accept the empty sequence. *)
Lemma guarded_analyses_empty :
  CA._analyze_tone []
  = [("professional", 0%Q); ("casual", 0%Q); ("formal", 0%Q); ("friendly", 0%Q)]
  /\ CA._analyze_style analyzer []
     = {| CA.avg_sentence_length := 0; CA.vocabulary_richness := 0; CA.emoji_usage := 0 |}
  /\ CA._extract_topics analyzer [] = []
  /\ CA._analyze_language_metrics analyzer []
     = {| CA.avg_post_length := 0; CA.avg_word_length := 0;
          CA.question_frequency := 0; CA.exclamation_frequency := 0 |}.
Proof. repeat split; reflexivity. Qed.

(** C2 on the code: with an empty sequence of posts the sentiment averages
    divide by [len(sentiments) = 0], so [process] raises [ZeroDivisionError]
    and returns no profile, for every NLP backend. *)
Theorem process_empty_posts_raises :
  CA._analyze_overall_sentiment analyzer []
  = Raise (ZeroDivisionError "division by zero")
  /\ CA.process analyzer [("posts", VList [])]
     = Raise (ZeroDivisionError "division by zero").
Proof. split; reflexivity. Qed.

End EmptyPosts.

(* ================================================================= *)
(** ** The success rate of a text batch *)

Section SuccessRate.

Variable text : TG.agent.

Lemma attempts_length prompt indices :
  (List.length (flat_map (TG.attempt text prompt) indices) <= List.length indices)%nat.
Proof.
  induction indices as [|i indices IH]; simpl; [lia|].
  rewrite length_app.
  assert (List.length (TG.attempt text prompt i) <= 1)%nat.
  { unfold TG.attempt. destruct (TG._generate_post text i prompt) as [post|e]; simpl; [|lia].
    destruct (String.eqb post ""); simpl; lia. }
  lia.
Qed.

Lemma ratio_bounds (a n : Z) :
  0 <= a <= n -> 0 < n ->
  (0 <= inject_Z a / inject_Z n <= 1)%Q.
Proof.
  intros [Ha Han] Hn.
  assert (Hpos : (0 < inject_Z n)%Q) by (rewrite (Zlt_Qlt 0 n) in Hn; exact Hn).
  split.
  - apply Qle_shift_div_l; [exact Hpos|].
    rewrite Qmult_0_l. rewrite (Zle_Qle 0 a) in Ha. exact Ha.
  - apply Qle_shift_div_r; [exact Hpos|].
    rewrite Qmult_1_l. rewrite (Zle_Qle a n) in Han. exact Han.
Qed.

(** C5. [process] never raises a division error, and in every batch result
    the success rate lies between 0 and 1, is the number of generated posts
    divided by the requested count, and is 0 when the requested count is 0
    (the requested count is then an integer, as [range] accepted it). *)
Theorem success_rate_correct (input_data : TG.TextInput) :
  (forall msg, TG.process text input_data <> Raise (ZeroDivisionError msg))
  /\ (forall batch,
         TG.process text input_data = Ok batch ->
         exists num_posts requested,
           TG.num_posts input_data = Some num_posts /\
           as_int num_posts = Some requested /\
           (0 <= TG.success_rate (TG.metadata batch) <= 1)%Q /\
           (requested <> 0 ->
            (TG.success_rate (TG.metadata batch)
             == inject_Z (CA.len (TG.generated_posts batch)) / inject_Z requested)%Q) /\
           (requested = 0 -> TG.success_rate (TG.metadata batch) = 0%Q) /\
           CA.len (TG.generated_posts batch) <= Z.max 0 requested).
Proof.
  unfold TG.process.
  destruct (BaseAgent.validate_input _ _); simpl; [|split; intros; discriminate].
  destruct (TG.brand_analysis input_data) as [analysis|],
           (TG.num_posts input_data) as [num_posts|],
           (TG.post_type input_data) as [post_type|],
           (TG.target_platform input_data) as [platform|];
    try (split; intros; discriminate).
  set (prompt := TG._create_system_prompt analysis post_type platform).
  assert (Hlen : forall k,
             CA.len (flat_map (TG.attempt text prompt) (seq 0 k)) <= Z.of_nat k).
  { intros k. unfold CA.len.
    pose proof (attempts_length prompt (seq 0 k)) as H.
    rewrite length_seq in H. lia. }
  destruct num_posts as [|b|n| | |]; simpl; try (split; intros; discriminate).
  - (* bool *)
    split; [destruct b; discriminate|].
    intros batch Hb. exists (VBool b), (if b then 1 else 0).
    destruct b; simpl in Hb; injection Hb as <-; simpl.
    + pose proof (attempts_length prompt [0%nat]) as H1. simpl in H1.
      unfold CA.len.
      split; [reflexivity|]. split; [reflexivity|].
      split; [apply ratio_bounds; lia|].
      split; [intros _; apply Qeq_refl|].
      split; [discriminate|lia].
    + split; [reflexivity|]. split; [reflexivity|].
      split; [split; discriminate|].
      split; [intros H; now elim H|].
      split; [reflexivity|]. unfold CA.len. simpl. lia.
  - (* int *)
    split; [destruct (0 <? n); discriminate|].
    intros batch Hb. exists (VInt n), n.
    specialize (Hlen (Z.to_nat n)).
    assert (H0 : 0 <= CA.len (flat_map (TG.attempt text prompt) (seq 0 (Z.to_nat n))))
      by (unfold CA.len; lia).
    destruct (0 <? n) eqn:Hn; simpl in Hb; injection Hb as <-; simpl.
    + apply Z.ltb_lt in Hn.
      split; [reflexivity|]. split; [reflexivity|].
      split; [apply ratio_bounds; lia|].
      split; [intros _; apply Qeq_refl|].
      split; [lia|lia].
    + apply Z.ltb_ge in Hn.
      assert (Hz : Z.to_nat n = 0%nat) by lia.
      rewrite Hz. simpl.
      split; [reflexivity|]. split; [reflexivity|].
      split; [split; discriminate|].
      split; [intros _; unfold CA.len; simpl; unfold Qdiv; now rewrite Qmult_0_l|].
      split; [reflexivity|]. unfold CA.len. simpl. lia.
Qed.

End SuccessRate.

(* ================================================================= *)
(** ** The visual generation agent *)

Section VisualAgent.

Variable self : VG.agent.

Lemma validate_visual_input (input_data : VG.VisualInput) text_content brand_guidelines :
  VG.text_content input_data = Some text_content ->
  VG.brand_guidelines input_data = Some brand_guidelines ->
  BaseAgent.validate_input (VG.keys input_data) ["text_content"; "brand_guidelines"] = true.
Proof.
  intros Ht Hb. unfold VG.keys. rewrite Ht, Hb.
  destruct (VG.style_preferences input_data), (VG.platform_specs input_data); reflexivity.
Qed.

(** C8. A call of [process] on an input that carries a text and brand
    guidelines, in which the generation fails for any of the reasons of
    [generation_failure] (among them: no credential configured, an error of
    the provider call, an empty response), does not raise: it returns an
    asset whose success flag is false, whose error description is a
    non-empty string and whose payload is present and is the placeholder
    image. *)
Theorem failed_generation_returns_placeholder
        (i : nat) (input_data : VG.VisualInput) text_content brand_guidelines :
  VG.text_content input_data = Some text_content ->
  VG.brand_guidelines input_data = Some brand_guidelines ->
  Visual.generation_failure self i text_content brand_guidelines
    (VG.or_empty (VG.style_preferences input_data)) ->
  exists asset description,
    VG.process self i input_data = Ok asset /\
    VG.generation_successful (VG.metadata asset) = false /\
    VG.error (VG.metadata asset) = Some description /\
    description <> "" /\
    VG.image_data asset = Some (VG._generate_mock_image self).
Proof.
  intros Ht Hb Hfail. unfold VG.process.
  rewrite (validate_visual_input input_data _ _ Ht Hb), Ht, Hb. simpl.
  unfold VG.try_generate.
  destruct Hfail as [e Hp | prompt Hp Hc | prompt api e Hp Hc Ha
                     | prompt api Hp Hc Ha | prompt api b64 rest e Hp Hc Ha Hd
                     | prompt api b64 rest Hp Hc Ha Hd];
    rewrite Hp; simpl; unfold VG._generate_image; try rewrite Hc; try rewrite Ha;
    try rewrite Hd; simpl; eexists; eexists;
    (split; [reflexivity|]); simpl; (split; [reflexivity|]);
    (split; [reflexivity|]); (split; [|reflexivity]).
  all: discriminate.
Qed.

(** On an input that carries a text and brand guidelines [process] never
    raises, and an asset flagged as successful carries a payload. *)
Lemma process_total (i : nat) (input_data : VG.VisualInput) text_content brand_guidelines :
  VG.text_content input_data = Some text_content ->
  VG.brand_guidelines input_data = Some brand_guidelines ->
  exists asset,
    VG.process self i input_data = Ok asset /\
    (VG.generation_successful (VG.metadata asset) = true -> VG.image_data asset <> None).
Proof.
  intros Ht Hb. unfold VG.process.
  rewrite (validate_visual_input input_data _ _ Ht Hb), Ht, Hb. simpl.
  unfold VG.try_generate.
  destruct (VG._create_image_prompt _ _ _) as [prompt|e]; simpl.
  - destruct (VG._generate_image self i prompt) as [[|b bs]|]; simpl;
      eexists; (split; [reflexivity|]); simpl; try discriminate.
    intros _. unfold VG._process_image. simpl.
    destruct (Py.bind _ _); discriminate.
  - eexists. split; [reflexivity|]. simpl. discriminate.
Qed.


(** C10. When the image was generated (the endpoint returned a non-empty
    payload [raw]) and its post-processing raises, [process] returns an asset
    whose payload is exactly the raw bytes, whose success flag is true and
    which has no error description; the payload is then the same whatever
    the platform specification asks for. *)
Theorem post_processing_error_returns_raw
        (i : nat) (input_data : VG.VisualInput) text_content brand_guidelines prompt raw :
  VG.text_content input_data = Some text_content ->
  VG.brand_guidelines input_data = Some brand_guidelines ->
  VG._create_image_prompt text_content brand_guidelines
    (VG.or_empty (VG.style_preferences input_data)) = Ok prompt ->
  VG._generate_image self i prompt = Some raw ->
  raw <> [] ->
  Visual.post_processing_raises self raw (VG.or_empty (VG.platform_specs input_data)) ->
  VG.process self i input_data
  = Ok {| VG.image_data := Some raw;
          VG.metadata :=
            {| VG.prompt_used := Some prompt;
               VG.meta_platform_specs := Some (VG.or_empty (VG.platform_specs input_data));
               VG.generation_successful := true;
               VG.error := None |} |}.
Proof.
  intros Ht Hb Hp Hg Hraw [e He]. unfold VG.process.
  rewrite (validate_visual_input input_data _ _ Ht Hb), Ht, Hb. simpl.
  unfold VG.try_generate. rewrite Hp. simpl. rewrite Hg.
  destruct raw as [|b bs]; [congruence|].
  unfold VG._process_image. simpl. simpl in He. rewrite He. reflexivity.
Qed.

End VisualAgent.

(* ================================================================= *)
(** ** Statistics of the compiled package *)

Section Statistics.

Variables (platform_configs : list (string * pyval))
          (analyzer : CA.agent) (text : TG.agent) (visual : VG.agent)
          (now : string).

Let self : OA.agent :=
  OA._initialize_agents platform_configs analyzer text visual now.




End Statistics.

(* ================================================================= *)
(** ** Tone analysis *)

Section ToneAnalysis.

Lemma score_post_table a b c d post :
  CA.score_post (Tone.table a b c d) post
  = Tone.table (a + CA.marker_hits Tone.professional (lower post))
               (b + CA.marker_hits Tone.casual (lower post))
               (c + CA.marker_hits Tone.formal (lower post))
               (d + CA.marker_hits Tone.friendly (lower post)).
Proof. reflexivity. Qed.

Lemma fold_score_post_table posts : forall a b c d,
  fold_left CA.score_post posts (Tone.table a b c d)
  = Tone.table (a + Tone.count Tone.professional posts)
               (b + Tone.count Tone.casual posts)
               (c + Tone.count Tone.formal posts)
               (d + Tone.count Tone.friendly posts).
Proof.
  induction posts as [|post posts IH]; intros a b c d.
  - simpl. unfold Tone.count. simpl. now rewrite !Z.add_0_r.
  - cbn [fold_left]. rewrite score_post_table, IH.
    unfold Tone.count. cbn [map CA.sumZ fold_right].
    rewrite <- !Z.add_assoc. reflexivity.
Qed.

Lemma tone_scores_table posts :
  CA.tone_scores posts
  = Tone.table (Tone.count Tone.professional posts) (Tone.count Tone.casual posts)
               (Tone.count Tone.formal posts) (Tone.count Tone.friendly posts).
Proof.
  unfold CA.tone_scores.
  change (map (fun tm => (fst tm, 0)) CA.tone_markers) with (Tone.table 0 0 0 0).
  now rewrite fold_score_post_table.
Qed.

Lemma marker_hits_nonneg markers post : 0 <= CA.marker_hits markers post.
Proof. unfold CA.marker_hits, CA.len. lia. Qed.


Lemma count_nonneg markers posts : 0 <= Tone.count markers posts.
Proof.
  unfold Tone.count. induction posts as [|post posts IH]; simpl; [lia|].
  pose proof (marker_hits_nonneg markers (lower post)). lia.
Qed.

Lemma count_cons markers post posts :
  Tone.count markers (post :: posts)
  = CA.marker_hits markers (lower post) + Tone.count markers posts.
Proof. reflexivity. Qed.



End ToneAnalysis.

Section ToneWeights.



Lemma analyze_tone_labels (posts : list string) :
  map fst (CA._analyze_tone posts) = ["professional"; "casual"; "formal"; "friendly"].
Proof. unfold CA._analyze_tone. now rewrite tone_scores_table. Qed.


End ToneWeights.

(* ================================================================= *)
(** ** Dominant tone *)

Section DominantTone.

Lemma Qltb_true a b : TG.Qltb a b = true <-> (a < b)%Q.
Proof.
  unfold TG.Qltb. rewrite negb_true_iff. split.
  - intros H. apply Qnot_le_lt. intros Hle.
    apply Qle_bool_iff in Hle. congruence.
  - intros H. destruct (Qle_bool b a) eqn:E; [|reflexivity].
    apply Qle_bool_iff in E. exfalso. exact (Qlt_not_le _ _ H E).
Qed.

Lemma Qltb_false a b : TG.Qltb a b = false <-> (b <= a)%Q.
Proof.
  unfold TG.Qltb. rewrite negb_false_iff. apply Qle_bool_iff.
Qed.

Lemma max_by_weight_cons best item rest :
  TG.max_by_weight best (item :: rest)
  = TG.max_by_weight (if TG.Qltb (snd best) (snd item) then item else best) rest.
Proof. reflexivity. Qed.

(** The running maximum of [max]: [best] was found after the items of
    [before], all strictly lighter, and was followed by the items of
    [between], none heavier. *)
Lemma max_by_weight_first_maximum rest : forall before best between,
  (forall x, In x before -> (snd x < snd best)%Q) ->
  (forall x, In x between -> (snd x <= snd best)%Q) ->
  exists before' after',
    (before ++ best :: between ++ rest)%list
    = (before' ++ TG.max_by_weight best rest :: after')%list /\
    (forall x, In x before' -> (snd x < snd (TG.max_by_weight best rest))%Q) /\
    (forall x, In x after' -> (snd x <= snd (TG.max_by_weight best rest))%Q).
Proof.
  induction rest as [|item rest IH]; intros before best between Hb Hm.
  - exists before, between. rewrite app_nil_r. auto.
  - rewrite max_by_weight_cons.
    destruct (TG.Qltb (snd best) (snd item)) eqn:Hlt.
    + apply Qltb_true in Hlt.
      destruct (IH (before ++ best :: between)%list item []) as (b' & a' & Heq & H1 & H2).
      * intros x Hin. apply in_app_or in Hin as [Hin|[<-|Hin]].
        -- exact (Qlt_trans _ _ _ (Hb x Hin) Hlt).
        -- exact Hlt.
        -- exact (Qle_lt_trans _ _ _ (Hm x Hin) Hlt).
      * intros x [].
      * exists b', a'. split; [|split; assumption].
        rewrite <- Heq. rewrite <- !app_assoc. reflexivity.
    + apply Qltb_false in Hlt.
      destruct (IH before best (between ++ [item])%list) as (b' & a' & Heq & H1 & H2).
      * exact Hb.
      * intros x Hin. apply in_app_or in Hin as [Hin|[<-|[]]]; auto.
      * exists b', a'. split; [|split; assumption].
        rewrite <- Heq. rewrite <- !app_assoc. reflexivity.
Qed.

Lemma max_by_weight_all_zero rest : forall best,
  (snd best == 0)%Q ->
  (forall x, In x rest -> (snd x == 0)%Q) ->
  TG.max_by_weight best rest = best.
Proof.
  induction rest as [|item rest IH]; intros best Hb Hr; [reflexivity|].
  rewrite max_by_weight_cons.
  assert (Hlt : TG.Qltb (snd best) (snd item) = false).
  { apply Qltb_false. rewrite Hb, (Hr item (or_introl eq_refl)). apply Qle_refl. }
  rewrite Hlt. apply IH; [exact Hb|].
  intros x Hin. apply Hr. now right.
Qed.

(** C4, as the code has it. The dominant tone of a non-empty distribution is
    the label of its first entry of maximum weight: every entry before it is
    strictly lighter and no entry after it is heavier, so that ties go to
    the label listed first; the distributions of the tone analysis list the
    labels as professional, casual, formal, friendly.  The dominant tone is
    "neutral" when the distribution has no entry; when all the weights of a
    non-empty distribution are zero it is the label listed first. *)
Theorem dominant_tone_first_maximum (tone_analysis : list (string * Q)) :
  (tone_analysis = [] -> TG._get_dominant_tone tone_analysis = "neutral")
  /\ (tone_analysis <> [] ->
      exists before weight after,
        tone_analysis
        = (before ++ (TG._get_dominant_tone tone_analysis, weight) :: after)%list /\
        (forall x, In x before -> (snd x < weight)%Q) /\
        (forall x, In x after -> (snd x <= weight)%Q))
  /\ (forall first rest,
         tone_analysis = first :: rest ->
         (forall x, In x tone_analysis -> (snd x == 0)%Q) ->
         TG._get_dominant_tone tone_analysis = fst first)
  /\ (forall posts,
         map fst (CA._analyze_tone posts) = ["professional"; "casual"; "formal"; "friendly"]).
Proof.
  split; [intros ->; reflexivity|]. split; [|split].
  - destruct tone_analysis as [|first rest]; [congruence|]. intros _.
    destruct (max_by_weight_first_maximum rest [] first [])
      as (before & after & Heq & H1 & H2); try (intros x []).
    simpl in Heq. unfold TG._get_dominant_tone.
    destruct (TG.max_by_weight first rest) as [tone weight] eqn:Hmax.
    exists before, weight, after. simpl in *. auto.
  - intros first rest -> Hz. unfold TG._get_dominant_tone.
    rewrite max_by_weight_all_zero; [reflexivity| |].
    + apply Hz. now left.
    + intros x Hin. apply Hz. now right.
  - intros posts. apply analyze_tone_labels.
Qed.

End DominantTone.

(* ================================================================= *)
(** ** Concrete runs *)

(** C1 on a run in which the second visual call raises: the entry of the
    second post is absent and the two sequences still have the same
    length. *)
Lemma visual_content_aligned_witness :
  exists package,
    OA.process Demo.flaky_orchestrator Demo.two_posts = (Demo.four_calls, Ok package) /\
    exists existing_posts brand_guidelines generation_params platform analysis_results
           text_content platform_specs visual_content t_text t_visual,
      dict_get "existing_posts" Demo.two_posts = Some existing_posts /\
      dict_get "brand_guidelines" Demo.two_posts = Some brand_guidelines /\
      dict_get "generation_params" Demo.two_posts = Some generation_params /\
      dict_get "platform" Demo.two_posts = Some platform /\
      OA.content_analyzer Demo.flaky_orchestrator [("posts", existing_posts)]
        = Ok analysis_results /\
      OA._generate_text_content Demo.flaky_orchestrator analysis_results
                                generation_params platform
        = (t_text, Ok text_content) /\
      OA._get_platform_specs Demo.flaky_orchestrator platform = Ok platform_specs /\
      OA._generate_visual_content Demo.flaky_orchestrator text_content brand_guidelines platform
        = (t_visual, Ok visual_content) /\
      package = OA._compile_content_package Demo.flaky_orchestrator text_content
                                            visual_content analysis_results /\
      Demo.four_calls = (OA.CallAnalysis :: t_text ++ t_visual)%list /\
      List.length visual_content = List.length (TG.generated_posts text_content) /\
      (forall k post,
          nth_error (TG.generated_posts text_content) k = Some post ->
          nth_error visual_content k
          = Some (OA.visual_attempt Demo.flaky_orchestrator text_content brand_guidelines
                                    platform_specs k post)) /\
      map OA.text (OA.posts package) = TG.generated_posts text_content /\
      t_visual = map OA.CallVisual (seq 0 (List.length (TG.generated_posts text_content))).
Proof.
  eexists. split.
  - vm_compute. reflexivity.
  - apply (visual_content_aligned Demo.flaky_orchestrator Demo.two_posts Demo.four_calls).
    vm_compute. reflexivity.
Defined.



(** C4 on the weights of posts without any marker: they are all zero and the
    dominant tone is "professional". *)
Lemma all_zero_dominant_tone_is_professional :
  Tone.marker_found Demo.plain_posts = false
  /\ (forall tone w, In (tone, w) (CA._analyze_tone Demo.plain_posts) -> w = 0%Q)
  /\ TG._get_dominant_tone (CA._analyze_tone Demo.plain_posts) = "professional"
  /\ TG._get_dominant_tone (CA._analyze_tone Demo.plain_posts) <> "neutral".
Proof.
  split; [reflexivity|]. split; [|split].
  - intros tone w H. vm_compute in H.
    destruct H as [H|[H|[H|[H|[]]]]]; injection H as _ <-; reflexivity.
  - reflexivity.
  - vm_compute. discriminate.
Qed.



(** C8 on a call without credential. *)
Lemma failed_generation_returns_placeholder_witness :
  VG.text_content Demo.visual_input = Some "Big launch today #launch @everyone"
  /\ VG.brand_guidelines Demo.visual_input = Some Demo.brand_guidelines
  /\ Visual.generation_failure Demo.visual_agent 0
       "Big launch today #launch @everyone" Demo.brand_guidelines
       (VG.or_empty (VG.style_preferences Demo.visual_input))
  /\ exists asset description,
      VG.process Demo.visual_agent 0 Demo.visual_input = Ok asset /\
      VG.generation_successful (VG.metadata asset) = false /\
      VG.error (VG.metadata asset) = Some description /\
      description <> "" /\
      VG.image_data asset = Some (VG._generate_mock_image Demo.visual_agent).
Proof.
  assert (Hfail : Visual.generation_failure Demo.visual_agent 0
                    "Big launch today #launch @everyone" Demo.brand_guidelines
                    (VG.or_empty (VG.style_preferences Demo.visual_input))).
  { eapply Visual.NoCredential; [vm_compute; reflexivity | reflexivity]. }
  split; [reflexivity|]. split; [reflexivity|]. split; [exact Hfail|].
  exact (failed_generation_returns_placeholder Demo.visual_agent 0 Demo.visual_input
           "Big launch today #launch @everyone" Demo.brand_guidelines
           eq_refl eq_refl Hfail).
Defined.

(** C9 on a request whose [existing_posts] is [None]: the request passes
    validation, the analysis agent is called and fails on the iteration. *)
Lemma nil_posts_pass_validation :
  ~ Run.carries_required (Demo.request VNone (Demo.params (VInt 2)))
  /\ OA.process Demo.orchestrator (Demo.request VNone (Demo.params (VInt 2)))
     = ([OA.CallAnalysis], Raise (TypeError "'NoneType' object is not iterable"))
  /\ OA.process Demo.orchestrator (Demo.request VNone (Demo.params (VInt 2)))
     <> Run.validation_error.
Proof.
  split; [|split].
  - intros [(posts & Hget & Hnil) _]. vm_compute in Hget. congruence.
  - vm_compute. reflexivity.
  - vm_compute. discriminate.
Qed.

(** C10 on an image that Pillow cannot open. *)
Lemma post_processing_error_returns_raw_witness :
  exists prompt,
    (VG.text_content Demo.visual_input = Some "Big launch today #launch @everyone" /\
     VG.brand_guidelines Demo.visual_input = Some Demo.brand_guidelines /\
     VG._create_image_prompt "Big launch today #launch @everyone" Demo.brand_guidelines
       (VG.or_empty (VG.style_preferences Demo.visual_input)) = Ok prompt /\
     VG._generate_image Demo.raw_visual_agent 0 prompt = Some [x89; x50; x4e] /\
     [x89; x50; x4e] <> [] /\
     Visual.post_processing_raises Demo.raw_visual_agent [x89; x50; x4e]
       (VG.or_empty (VG.platform_specs Demo.visual_input))) /\
    VG.process Demo.raw_visual_agent 0 Demo.visual_input
    = Ok {| VG.image_data := Some [x89; x50; x4e];
            VG.metadata :=
              {| VG.prompt_used := Some prompt;
                 VG.meta_platform_specs :=
                   Some (VG.or_empty (VG.platform_specs Demo.visual_input));
                 VG.generation_successful := true;
                 VG.error := None |} |}.
Proof.
  assert (Hraise : Visual.post_processing_raises Demo.raw_visual_agent [x89; x50; x4e]
                     (VG.or_empty (VG.platform_specs Demo.visual_input)))
    by (eexists; vm_compute; reflexivity).
  eexists. split.
  - split; [reflexivity|]. split; [reflexivity|].
    split; [vm_compute; reflexivity|]. split; [reflexivity|].
    split; [discriminate|exact Hraise].
  - apply (post_processing_error_returns_raw Demo.raw_visual_agent 0 Demo.visual_input
             "Big launch today #launch @everyone" Demo.brand_guidelines _ [x89; x50; x4e]
             eq_refl eq_refl);
      [vm_compute; reflexivity | reflexivity | discriminate | exact Hraise].
Defined.

(* ================================================================= *)
(** ** Validation and configuration of an agent *)

Section Agent.

Lemma dict_mem_In k keys : dict_mem k keys = true <-> In k keys.
Proof.
  unfold dict_mem. rewrite existsb_exists. split.
  - intros (x & Hin & Heq). apply String.eqb_eq in Heq. now subst.
  - intros Hin. exists k. split; [exact Hin | apply String.eqb_refl].
Qed.

(** X1. [validate_input] accepts an input exactly when every required field
    is one of its keys; hence an input that is valid stays valid when keys
    are added to it or when fewer fields are required, and the order and the
    repetitions of the required fields do not matter. *)
Theorem validate_input_spec (input_keys required_fields : list string) :
  (BaseAgent.validate_input input_keys required_fields = true <->
   incl required_fields input_keys)
  /\ (forall more_keys fewer_fields,
         BaseAgent.validate_input input_keys required_fields = true ->
         incl input_keys more_keys ->
         incl fewer_fields required_fields ->
         BaseAgent.validate_input more_keys fewer_fields = true).
Proof.
  assert (Hspec : forall keys required,
             BaseAgent.validate_input keys required = true <-> incl required keys).
  { intros keys required. unfold BaseAgent.validate_input, incl.
    induction required as [|f required IH]; simpl.
    - split; [intros _ a [] | reflexivity].
    - destruct (dict_mem f keys) eqn:Hf; simpl.
      + apply dict_mem_In in Hf. rewrite IH. split.
        * intros H a [<-|Ha]; auto.
        * intros H a Ha. apply H. now right.
      + split; [discriminate|]. intros H.
        assert (dict_mem f keys = true) by (apply dict_mem_In, H; now left).
        congruence. }
  split; [apply Hspec|].
  intros more fewer Hv Hmore Hfewer. apply Hspec. apply Hspec in Hv.
  intros a Ha. apply Hmore, Hv, Hfewer, Ha.
Qed.

Lemma dict_get_set_same {V} k (v : V) d : dict_get k (dict_set k v d) = Some v.
Proof.
  induction d as [|[k' v'] d IH]; simpl.
  - now rewrite String.eqb_refl.
  - destruct (String.eqb k k') eqn:E; simpl; rewrite E; [reflexivity | exact IH].
Qed.

Lemma dict_get_set_other {V} k k' (v : V) d :
  k <> k' -> dict_get k (dict_set k' v d) = dict_get k d.
Proof.
  intros Hne. apply String.eqb_neq in Hne.
  induction d as [|[k'' v''] d IH]; simpl.
  - now rewrite Hne.
  - destruct (String.eqb k' k'') eqn:E; simpl.
    + apply String.eqb_eq in E. subst k''. now rewrite Hne.
    + destruct (String.eqb k k''); [reflexivity | exact IH].
Qed.

Lemma dict_set_keys {V} k (v : V) d :
  map fst (dict_set k v d)
  = if dict_mem k (map fst d) then map fst d else (map fst d ++ [k])%list.
Proof.
  unfold dict_mem. induction d as [|[k' v'] d IH]; simpl; [reflexivity|].
  destruct (String.eqb k k') eqn:E; simpl; [reflexivity|].
  rewrite IH. now destruct (existsb (String.eqb k) (map fst d)).
Qed.

Lemma dict_get_update {V} k (updates d : list (string * V)) :
  dict_get k (dict_update d updates)
  = match Config.last_binding k updates with
    | Some v => Some v
    | None => dict_get k d
    end.
Proof.
  unfold dict_update. revert d.
  induction updates as [|[k' v] updates IH]; intros d; simpl; [reflexivity|].
  rewrite IH. destruct (Config.last_binding k updates); [reflexivity|].
  destruct (String.eqb k k') eqn:E.
  - apply String.eqb_eq in E. subst. apply dict_get_set_same.
  - apply String.eqb_neq in E. now apply dict_get_set_other.
Qed.

(** X2. After [update_config] a configuration key reads as the value the
    update gave it, and as its previous value (or the default of the
    lookup) when the update does not mention it; the keys already configured
    keep their position. *)
Theorem get_config_after_update (config updates : list (string * pyval))
        (key : string) (default : pyval) :
  BaseAgent.get_config (BaseAgent.update_config config updates) key default
  = match Config.last_binding key updates with
    | Some v => v
    | None => BaseAgent.get_config config key default
    end
  /\ firstn (List.length config) (map fst (BaseAgent.update_config config updates))
     = map fst config.
Proof.
  unfold BaseAgent.get_config, BaseAgent.update_config, dict_get_default. split.
  - rewrite dict_get_update. now destruct (Config.last_binding key updates).
  - unfold dict_update. revert config.
    induction updates as [|[k v] updates IH]; intros config; simpl.
    + rewrite <- (length_map fst config). apply firstn_all.
    + assert (Hpre : exists extra,
                 map fst (dict_set k v config) = (map fst config ++ extra)%list).
      { rewrite dict_set_keys. destruct (dict_mem k (map fst config)).
        - exists []. now rewrite app_nil_r.
        - now exists [k]. }
      destruct Hpre as [extra Hpre].
      specialize (IH (dict_set k v config)).
      assert (Hlen : List.length (dict_set k v config)
                     = (List.length config + List.length extra)%nat).
      { rewrite <- (length_map fst (dict_set k v config)), Hpre, length_app, length_map.
        reflexivity. }
      rewrite Hlen, Hpre in IH.
      apply (f_equal (firstn (List.length config))) in IH.
      rewrite firstn_firstn, Nat.min_l in IH by lia.
      rewrite IH. rewrite <- (length_map fst config) at 1.
      now rewrite firstn_app, firstn_all, Nat.sub_diag, firstn_0, app_nil_r.
Qed.

End Agent.

(* ================================================================= *)
(** ** The text generation agent *)

Section TextAgent.

Variable text : TG.agent.

Lemma lstrip_suffix s :
  exists spaces,
    list_ascii_of_string s = (spaces ++ list_ascii_of_string (lstrip s))%list.
Proof.
  induction s as [|c s IH]; simpl.
  - now exists [].
  - destruct (is_space c).
    + destruct IH as [spaces IH]. exists (c :: spaces). simpl. now rewrite IH.
    + now exists [].
Qed.

Lemma lstrip_first s c : Text.first_char (lstrip s) = Some c -> is_space c = false.
Proof.
  unfold Text.first_char. induction s as [|a s IH]; simpl; [discriminate|].
  destruct (is_space a) eqn:E; [exact IH|].
  simpl. intros H. injection H as <-. exact E.
Qed.

Lemma strip_trimmed s : Text.trimmed (strip s).
Proof.
  unfold strip, rev_string, Text.trimmed, Text.first_char, Text.last_char.
  set (a := lstrip s).
  set (b := lstrip (string_of_list_ascii (rev (list_ascii_of_string a)))).
  rewrite !list_ascii_of_string_of_list_ascii.
  assert (Hb : forall c, hd_error (list_ascii_of_string b) = Some c -> is_space c = false)
    by (intros c; apply lstrip_first).
  split; [|now rewrite rev_involutive].
  intros c Hc.
  destruct (lstrip_suffix (string_of_list_ascii (rev (list_ascii_of_string a))))
    as [spaces Hs].
  fold b in Hs. rewrite list_ascii_of_string_of_list_ascii in Hs.
  apply (f_equal (@rev ascii)) in Hs. rewrite rev_involutive, rev_app_distr in Hs.
  apply (lstrip_first s c). fold a. unfold Text.first_char. rewrite Hs.
  destruct (rev (list_ascii_of_string b)); [discriminate | exact Hc].
Qed.

(** X3. Without a client (no API key) [process] returns, for an integer
    [num_posts], exactly [num_posts] copies of the placeholder post (none for
    a count that is not positive) and a success rate of 1 for a positive
    count. *)
Theorem process_without_client (input_data : TG.TextInput)
        analysis num_posts post_type platform n :
  TG.client text = None ->
  TG.brand_analysis input_data = Some analysis ->
  TG.num_posts input_data = Some num_posts ->
  TG.post_type input_data = Some post_type ->
  TG.target_platform input_data = Some platform ->
  as_int num_posts = Some n ->
  exists batch,
    TG.process text input_data = Ok batch /\
    TG.generated_posts batch = repeat TG._generate_mock_post (Z.to_nat n) /\
    (0 < n -> (TG.success_rate (TG.metadata batch) == 1)%Q) /\
    (n <= 0 -> TG.success_rate (TG.metadata batch) = 0%Q).
Proof.
  intros Hc Ha Hn Hp Ht Hint. unfold TG.process, TG.keys.
  rewrite Ha, Hn, Hp, Ht. simpl.
  set (prompt := TG._create_system_prompt analysis post_type platform).
  assert (Hmock : forall k i,
             flat_map (TG.attempt text prompt) (seq i k)
             = repeat TG._generate_mock_post k).
  { induction k as [|k IH]; intros i; [reflexivity|].
    cbn [seq flat_map repeat]. rewrite IH.
    unfold TG.attempt, TG._generate_post. rewrite Hc. reflexivity. }
  assert (Hrate : forall k : nat,
             (0 < k)%nat ->
             (inject_Z (CA.len (repeat TG._generate_mock_post k))
              / inject_Z (Z.of_nat k) == 1)%Q).
  { intros k Hk. unfold CA.len. rewrite repeat_length.
    apply Qmult_inv_r. intros H. unfold Qeq in H. simpl in H. lia. }
  destruct num_posts as [|b|z| | |]; try discriminate; simpl in Hint;
    injection Hint as <-.
  - destruct b; simpl.
    + unfold TG.attempt, TG._generate_post. rewrite Hc. simpl.
      eexists. split; [reflexivity|]. simpl. split; [reflexivity|]. split.
      * intros _. reflexivity.
      * lia.
    + eexists. split; [reflexivity|]. simpl. split; [reflexivity|].
      split; [lia | reflexivity].
  - simpl. rewrite Hmock. destruct (0 <? z) eqn:Hz; simpl.
    + apply Z.ltb_lt in Hz. eexists. split; [reflexivity|]. simpl.
      split; [reflexivity|]. split; [|lia].
      intros _. pose proof (Hrate (Z.to_nat z) ltac:(lia)) as H.
      now rewrite Z2Nat.id in H by lia.
    + apply Z.ltb_ge in Hz. eexists. split; [reflexivity|]. simpl.
      split; [reflexivity|]. split; [lia | reflexivity].
Qed.

(** X4. A missing key makes [process] raise the validation error.  When the
    four keys are present and [brand_analysis] is a profile that the content
    analysis agent returned, which is how the orchestrator calls it, the
    only other failure of [process] is the [TypeError] of a [num_posts] that
    is not an integer: for an integer it returns a batch that carries the
    post type and the platform of the input, whatever the language model
    answers or raises. *)
Theorem process_outcomes (input_data : TG.TextInput) :
  (~ Text.complete input_data ->
   TG.process text input_data = Raise (ValueError "Invalid input data"))
  /\ (forall (analyzer : CA.agent) analysis_input analysis num_posts,
         CA.process analyzer analysis_input = Ok analysis ->
         TG.brand_analysis input_data = Some analysis ->
         Text.complete input_data ->
         TG.num_posts input_data = Some num_posts ->
         as_int num_posts = None ->
         exists msg, TG.process text input_data = Raise (TypeError msg))
  /\ (forall (analyzer : CA.agent) analysis_input analysis num_posts n,
         CA.process analyzer analysis_input = Ok analysis ->
         TG.brand_analysis input_data = Some analysis ->
         Text.complete input_data ->
         TG.num_posts input_data = Some num_posts ->
         as_int num_posts = Some n ->
         exists batch,
           TG.process text input_data = Ok batch /\
           TG.post_type input_data = Some (TG.meta_post_type (TG.metadata batch)) /\
           TG.target_platform input_data
           = Some (TG.meta_target_platform (TG.metadata batch))).
Proof.
  unfold Text.complete, TG.process, TG.keys.
  destruct (TG.brand_analysis input_data) as [a|],
           (TG.num_posts input_data) as [np|],
           (TG.post_type input_data) as [pt|],
           (TG.target_platform input_data) as [tp|]; simpl;
    try (split; [reflexivity|]; split; intros; intuition congruence).
  split; [intros H; exfalso; apply H; repeat split; discriminate|].
  split.
  - intros _ _ _ num_posts _ _ _ H Hint. injection H as <-.
    destruct np; try discriminate; simpl; eauto.
  - intros _ _ _ num_posts n _ _ _ H Hint. injection H as <-.
    destruct np as [|b|z| | |]; try discriminate; simpl.
    + destruct b; simpl; eauto.
    + destruct (0 <? z); simpl; eauto.
Qed.

Lemma attempt_posts prompt i post :
  In post (TG.attempt text prompt i) ->
  post <> "" /\
  match TG.client text with
  | None => post = TG._generate_mock_post
  | Some api => exists content, api i prompt = Ok content /\ post = strip content
  end.
Proof.
  unfold TG.attempt, TG._generate_post.
  destruct (TG.client text) as [api|].
  - destruct (api i prompt) as [content|e]; simpl; [|tauto].
    destruct (String.eqb (strip content) "") eqn:E; simpl; [tauto|].
    intros [<-|[]]. apply String.eqb_neq in E. eauto.
  - simpl. intros [<-|[]]. split; [discriminate | reflexivity].
Qed.

(** X5. Every post of a batch is a non-empty text without leading or
    trailing whitespace: it is the stripped content of one of the answers of
    the language model, or the placeholder post when no client is
    configured. *)
Theorem generated_posts_trimmed (input_data : TG.TextInput) batch post :
  TG.process text input_data = Ok batch ->
  In post (TG.generated_posts batch) ->
  post <> "" /\ Text.trimmed post /\
  match TG.client text with
  | None => post = TG._generate_mock_post
  | Some api => exists i prompt content, api i prompt = Ok content /\ post = strip content
  end.
Proof.
  unfold TG.process.
  destruct (BaseAgent.validate_input _ _); simpl; [|discriminate].
  destruct (TG.brand_analysis input_data) as [a|],
           (TG.num_posts input_data) as [np|],
           (TG.post_type input_data) as [pt|],
           (TG.target_platform input_data) as [tp|]; try discriminate.
  set (prompt := TG._create_system_prompt a pt tp).
  destruct (range np) as [indices|e]; simpl; [|discriminate].
  destruct (as_int np) as [n|]; simpl; [|discriminate].
  intros Hb Hin.
  assert (Hposts : In post (flat_map (TG.attempt text prompt) indices)).
  { destruct (0 <? n); injection Hb as <-; exact Hin. }
  apply in_flat_map in Hposts as (i & _ & Hi).
  apply attempt_posts in Hi as [Hne Hsrc]. split; [exact Hne|].
  destruct (TG.client text) as [api|].
  - destruct Hsrc as (content & Hc & ->). split; [apply strip_trimmed | eauto].
  - subst post. split; [|reflexivity].
    split; intros c H; vm_compute in H; injection H as <-; reflexivity.
Qed.

End TextAgent.

(* ================================================================= *)
(** ** Prompts and outcomes of the visual generation agent *)

Section Prompts.

Lemma append_assoc (a b c : string) : ((a ++ b) ++ c = a ++ (b ++ c))%string.
Proof. induction a as [|x a IH]; simpl; [reflexivity | now rewrite IH]. Qed.

Lemma append_empty_r (a : string) : (a ++ "")%string = a.
Proof. induction a as [|x a IH]; simpl; [reflexivity | now rewrite IH]. Qed.

Lemma append_eq_empty (a b : string) : (a ++ b)%string = "" -> a = "".
Proof. destruct a; [reflexivity | discriminate]. Qed.

Lemma split_aux_word w : forall s cur,
  (forall c, In c (list_ascii_of_string w) -> is_space c = false) ->
  split_aux (w ++ s) cur = split_aux s (cur ++ w).
Proof.
  induction w as [|x w IH]; intros s cur Hw; simpl.
  - now rewrite append_empty_r.
  - rewrite (Hw x (or_introl eq_refl)).
    rewrite IH by (intros c Hc; apply Hw; now right).
    now rewrite append_assoc.
Qed.

Lemma split_aux_words s : forall cur w,
  (forall c, In c (list_ascii_of_string cur) -> is_space c = false) ->
  In w (split_aux s cur) -> Words.word w.
Proof.
  induction s as [|x s IH]; intros cur w Hcur; simpl.
  - destruct (String.eqb cur "") eqn:E; [intros []|].
    intros [<-|[]]. apply String.eqb_neq in E. now split.
  - destruct (is_space x) eqn:Hx.
    + destruct (String.eqb cur "") eqn:E.
      * apply IH. intros c [].
      * intros [<-|Hin].
        -- apply String.eqb_neq in E. now split.
        -- revert Hin. apply IH. intros c [].
    + apply IH. intros c Hc.
      assert (Hl : forall a b, list_ascii_of_string (a ++ b)
                               = (list_ascii_of_string a ++ list_ascii_of_string b)%list).
      { intros a b. induction a as [|y a IHa]; simpl; [reflexivity | now rewrite IHa]. }
      rewrite Hl in Hc. apply in_app_or in Hc as [Hc|[<-|[]]]; auto.
Qed.

Lemma split_join words :
  (forall w, In w words -> Words.word w) ->
  split (join " " words) = words.
Proof.
  unfold split. induction words as [|w words IH]; intros Hw; [reflexivity|].
  destruct (Hw w (or_introl eq_refl)) as [Hne Hns].
  assert (Hrest : forall w', In w' words -> Words.word w')
    by (intros w' H; apply Hw; now right).
  destruct words as [|w2 words].
  - simpl. rewrite <- (append_empty_r w) at 1.
    rewrite split_aux_word by exact Hns. simpl.
    apply String.eqb_neq in Hne. now rewrite Hne.
  - change (join " " (w :: w2 :: words))
      with (w ++ String " " (join " " (w2 :: words)))%string.
    rewrite split_aux_word by exact Hns.
    cbn [split_aux append]. change (is_space " ") with true. cbv iota.
    apply String.eqb_neq in Hne. rewrite Hne. f_equal. now apply IH.
Qed.

(** X7. The subject of an image prompt is the text of the post without its
    hashtags and mentions: split into words again it gives exactly the words
    of the post that start with neither [#] nor [@], in their order. *)
Theorem key_concepts_drop_tags text_content brand_guidelines style_preferences prompt :
  VG._create_image_prompt text_content brand_guidelines style_preferences = Ok prompt ->
  split (VG.key_concepts prompt)
  = filter (fun w => negb (Words.is_tag w)) (split text_content)
  /\ forall w, In w (split (VG.key_concepts prompt)) ->
               Words.word w /\ Words.is_tag w = false.
Proof.
  intros Hp.
  assert (Hk : VG.key_concepts prompt
               = join " " (filter (fun w => negb (Words.is_tag w)) (split text_content))).
  { unfold VG._create_image_prompt in Hp.
    destruct (method_get brand_guidelines "colors" _); simpl in Hp; [|discriminate].
    destruct (method_get brand_guidelines "style" _); simpl in Hp; [|discriminate].
    destruct (method_get style_preferences "mood" _); simpl in Hp; [|discriminate].
    destruct (if truthy _ then _ else _); simpl in Hp; [|discriminate].
    injection Hp as <-. simpl. f_equal. apply filter_ext. intros w.
    unfold Words.is_tag. now rewrite negb_orb. }
  assert (Hwords : forall w,
             In w (filter (fun w => negb (Words.is_tag w)) (split text_content)) ->
             Words.word w /\ Words.is_tag w = false).
  { intros w Hin. apply filter_In in Hin as [Hin Ht]. split.
    - apply (split_aux_words text_content "" w); [intros c [] | exact Hin].
    - now apply negb_true_iff in Ht. }
  rewrite Hk, split_join by (intros w Hin; now apply Hwords).
  split; [reflexivity | exact Hwords].
Qed.

End Prompts.

Section VisualOutcomes.

Variable self : VG.agent.

(** X6. The asset returned by [process] is flagged successful exactly when
    the image endpoint answered the prompt with a first item that decodes
    to a non-empty payload; the asset then records the prompt and no error,
    and its payload is the processed image or, when the processing fails,
    the decoded payload itself.  In all other cases the asset is the
    placeholder.  Only the first item of the response is ever used. *)
Theorem process_success_spec (i : nat) (input_data : VG.VisualInput)
        text_content brand_guidelines asset :
  VG.text_content input_data = Some text_content ->
  VG.brand_guidelines input_data = Some brand_guidelines ->
  VG.process self i input_data = Ok asset ->
  (VG.generation_successful (VG.metadata asset) = true ->
   exists prompt raw,
     VG._create_image_prompt text_content brand_guidelines
       (VG.or_empty (VG.style_preferences input_data)) = Ok prompt /\
     Words.generated self i prompt raw /\
     VG.prompt_used (VG.metadata asset) = Some prompt /\
     VG.error (VG.metadata asset) = None /\
     VG.image_data asset
     = Some (match (target_size <- method_get (VG.or_empty (VG.platform_specs input_data))
                                              "size" (VList [VInt 1024; VInt 1024]);;
                    VG.pil_pipeline self raw target_size) with
             | Ok processed => processed
             | Raise _ => raw
             end))
  /\ (VG.generation_successful (VG.metadata asset) = false ->
      Visual.generation_failure self i text_content brand_guidelines
        (VG.or_empty (VG.style_preferences input_data)) /\
      VG.image_data asset = Some (VG._generate_mock_image self)).
Proof.
  intros Ht Hb. unfold VG.process.
  rewrite (validate_visual_input input_data _ _ Ht Hb), Ht, Hb. simpl.
  unfold VG.try_generate.
  destruct (VG._create_image_prompt _ _ _) as [prompt|e] eqn:Hp; simpl.
  - unfold VG._generate_image.
    destruct (VG.client self) as [api|] eqn:Hc.
    + destruct (api i prompt) as [[|b64 rest]|e] eqn:Ha.
      * intros H. injection H as <-. simpl. split; [discriminate|].
        intros _. split; [|reflexivity]. eapply Visual.EmptyResponse; eauto.
      * destruct (VG.b64decode self b64) as [[|b bs]|e] eqn:Hd.
        -- intros H. injection H as <-. simpl. split; [discriminate|].
           intros _. split; [|reflexivity]. eapply Visual.EmptyPayload; eauto.
        -- intros H. injection H as <-. simpl. split; [|discriminate].
           intros _. exists prompt, (b :: bs).
           split; [reflexivity|]. split.
           ++ exists api, b64, rest. repeat split; auto. discriminate.
           ++ split; [reflexivity|]. split; [reflexivity|].
              unfold VG._process_image. simpl.
              now destruct (Py.bind _ _).
        -- intros H. injection H as <-. simpl. split; [discriminate|].
           intros _. split; [|reflexivity]. eapply Visual.DecodeError; eauto.
      * intros H. injection H as <-. simpl. split; [discriminate|].
        intros _. split; [|reflexivity]. eapply Visual.CallError; eauto.
    + intros H. injection H as <-. simpl. split; [discriminate|].
      intros _. split; [|reflexivity]. eapply Visual.NoCredential; eauto.
  - intros H. injection H as <-. simpl. split; [discriminate|].
    intros _. split; [|reflexivity]. eapply Visual.PromptError; eauto.
Qed.

End VisualOutcomes.

(* ================================================================= *)
(** ** Style, language and tone metrics *)

Section Metrics.

Variable analyzer : CA.agent.

Lemma sumZ_nonneg (l : list Z) : (forall z, In z l -> 0 <= z) -> 0 <= CA.sumZ l.
Proof.
  induction l as [|z l IH]; simpl; intros H; [lia|].
  pose proof (H z (or_introl eq_refl)).
  assert (0 <= CA.sumZ l) by (apply IH; intros; apply H; now right).
  unfold CA.sumZ in *. lia.
Qed.

Lemma sumZ_map_nonneg {A} (f : A -> Z) (l : list A) :
  (forall a, 0 <= f a) -> 0 <= CA.sumZ (map f l).
Proof.
  intros H. apply sumZ_nonneg. intros z Hz.
  apply in_map_iff in Hz as (a & <- & _). apply H.
Qed.

Lemma len_nonneg {A} (l : list A) : 0 <= CA.len l.
Proof. unfold CA.len. lia. Qed.

Lemma sumZ_len_flat_map {A B} (f : A -> list B) (l : list A) :
  CA.sumZ (map (fun a => CA.len (f a)) l) = CA.len (flat_map f l).
Proof.
  unfold CA.len, CA.sumZ. induction l as [|a l IH]; simpl; [reflexivity|].
  rewrite length_app, IH. lia.
Qed.

Lemma unique_length (words : list string) :
  (List.length (CA.unique words) <= List.length words)%nat.
Proof.
  unfold CA.unique. induction words as [|w words IH]; simpl; [lia|].
  destruct (in_dec string_dec w words); simpl; lia.
Qed.

Lemma quotient_nonneg (a n : Z) : 0 <= a -> 0 < n -> (0 <= inject_Z a / inject_Z n)%Q.
Proof.
  intros Ha Hn. apply Qle_shift_div_l.
  - rewrite (Zlt_Qlt 0 n) in Hn. exact Hn.
  - rewrite Qmult_0_l. rewrite (Zle_Qle 0 a) in Ha. exact Ha.
Qed.

(** X8. The style metrics of every sequence of posts are well formed: the
    average sentence length and the emoji usage are not negative, and the
    vocabulary richness, the share of distinct words among all words, lies
    between 0 and 1 (it is 0 when no word was found). *)
Theorem style_metrics_bounds (posts : list string) :
  (0 <= CA.avg_sentence_length (CA._analyze_style analyzer posts))%Q
  /\ (0 <= CA.vocabulary_richness (CA._analyze_style analyzer posts) <= 1)%Q
  /\ (0 <= CA.emoji_usage (CA._analyze_style analyzer posts))%Q
  /\ (flat_map (fun post => CA.word_tokenize analyzer (lower post)) posts = [] ->
      CA.vocabulary_richness (CA._analyze_style analyzer posts) = 0%Q).
Proof.
  unfold CA._analyze_style.
  rewrite (sumZ_len_flat_map (fun post => CA.word_tokenize analyzer (lower post)) posts).
  set (words := flat_map (fun post => CA.word_tokenize analyzer (lower post)) posts).
  set (sentence_words := CA.sumZ (map _ posts)).
  set (emojis := CA.sumZ (map (fun post => CA.len (filter CA._is_emoji _)) posts)).
  assert (Hs : 0 <= sentence_words).
  { apply sumZ_map_nonneg. intros post. apply sumZ_map_nonneg. intros s. apply len_nonneg. }
  assert (He : 0 <= emojis) by (apply sumZ_map_nonneg; intros; apply len_nonneg).
  pose proof (unique_length words) as Hu.
  assert (Hzero : (0 <= 0)%Q /\ (0 <= 0 <= 1)%Q) by (repeat split; discriminate).
  destruct (0 <? CA.len posts) eqn:Hn; cbn [CA.avg_sentence_length
    CA.vocabulary_richness CA.emoji_usage].
  - apply Z.ltb_lt in Hn.
    split; [now apply quotient_nonneg|]. split; [|split; [now apply quotient_nonneg|]].
    + destruct (0 <? CA.len words) eqn:Hw; [|apply Hzero].
      apply Z.ltb_lt in Hw. apply ratio_bounds; unfold CA.len in *; lia.
    + intros ->. reflexivity.
  - split; [|split; [apply Hzero|split; [|reflexivity]]].
    + rewrite (Zle_Qle 0 sentence_words) in Hs. exact Hs.
    + rewrite (Zle_Qle 0 emojis) in He. exact He.
Qed.

(** X9. The language metrics of every sequence of posts are not negative,
    and the average word length is 0 when the tokenizer found no word. *)
Theorem language_metrics_nonneg (posts : list string) :
  (0 <= CA.avg_post_length (CA._analyze_language_metrics analyzer posts))%Q
  /\ (0 <= CA.avg_word_length (CA._analyze_language_metrics analyzer posts))%Q
  /\ (0 <= CA.question_frequency (CA._analyze_language_metrics analyzer posts))%Q
  /\ (0 <= CA.exclamation_frequency (CA._analyze_language_metrics analyzer posts))%Q
  /\ (flat_map (CA.word_tokenize analyzer) posts = [] ->
      CA.avg_word_length (CA._analyze_language_metrics analyzer posts) = 0%Q).
Proof.
  unfold CA._analyze_language_metrics.
  rewrite (sumZ_len_flat_map (CA.word_tokenize analyzer) posts).
  set (words := flat_map (CA.word_tokenize analyzer) posts).
  set (chars := CA.sumZ (map _ posts)).
  set (questions := CA.sumZ (map (count_char "?") posts)).
  set (exclamations := CA.sumZ (map (count_char "!") posts)).
  assert (Hc : 0 <= chars).
  { apply sumZ_map_nonneg. intros post. apply sumZ_map_nonneg. intros w. lia. }
  assert (Hq : 0 <= questions)
    by (apply sumZ_map_nonneg; intros; unfold count_char; lia).
  assert (Hx : 0 <= exclamations)
    by (apply sumZ_map_nonneg; intros; unfold count_char; lia).
  pose proof (len_nonneg words) as Hw.
  assert (Hzero : (0 <= 0)%Q) by discriminate.
  destruct (0 <? CA.len posts) eqn:Hn; cbn [CA.avg_post_length CA.avg_word_length
    CA.question_frequency CA.exclamation_frequency].
  - apply Z.ltb_lt in Hn.
    split; [now apply quotient_nonneg|].
    split; [|split; [now apply quotient_nonneg|split; [now apply quotient_nonneg|]]].
    + destruct (0 <? CA.len words) eqn:Hl; [|exact Hzero].
      apply Z.ltb_lt in Hl. now apply quotient_nonneg.
    + intros ->. reflexivity.
  - split; [exact Hzero|]. split; [exact Hzero|]. split; [|split; [|reflexivity]].
    + rewrite (Zle_Qle 0 questions) in Hq. exact Hq.
    + rewrite (Zle_Qle 0 exclamations) in Hx. exact Hx.
Qed.

End Metrics.

Section ToneOrder.

Lemma count_app markers posts posts' :
  Tone.count markers (posts ++ posts')
  = Tone.count markers posts + Tone.count markers posts'.
Proof.
  induction posts as [|p posts IH]; [reflexivity|].
  cbn [app]. rewrite !count_cons, IH. lia.
Qed.

Lemma count_permutation markers posts posts' :
  Permutation posts posts' -> Tone.count markers posts = Tone.count markers posts'.
Proof.
  induction 1 as [|p l l' _ IH|p q l|l l' l'' _ IH1 _ IH2].
  - reflexivity.
  - now rewrite !count_cons, IH.
  - rewrite !count_cons. lia.
  - congruence.
Qed.

Lemma marker_hits_bound markers post :
  CA.marker_hits markers post <= Z.of_nat (List.length markers).
Proof.
  unfold CA.marker_hits, CA.len.
  pose proof (filter_length_le (fun marker => contains marker post) markers). lia.
Qed.

Lemma count_bound markers posts :
  Tone.count markers posts <= Z.of_nat (List.length markers) * CA.len posts.
Proof.
  unfold CA.len. induction posts as [|p posts IH].
  - unfold Tone.count. simpl. lia.
  - rewrite count_cons. pose proof (marker_hits_bound markers (lower p)).
    cbn [List.length]. lia.
Qed.

(** X11. The tone analysis does not depend on the order of the posts, the
    raw score of a tone over two batches of posts is the sum of its scores
    over each batch, and a post adds at most 4 to the score of a tone (one
    per marker, however often the marker occurs in it). *)
Theorem tone_scores_additive (posts posts' : list string) :
  (Permutation posts posts' -> CA._analyze_tone posts = CA._analyze_tone posts')
  /\ (forall tone score score',
         dict_get tone (CA.tone_scores posts) = Some score ->
         dict_get tone (CA.tone_scores posts') = Some score' ->
         dict_get tone (CA.tone_scores (posts ++ posts')) = Some (score + score'))
  /\ (forall tone score,
         dict_get tone (CA.tone_scores posts) = Some score ->
         0 <= score <= 4 * CA.len posts).
Proof.
  split; [|split].
  - intros Hp. unfold CA._analyze_tone. rewrite !tone_scores_table.
    now rewrite !(count_permutation _ posts posts' Hp).
  - intros tone score score'. rewrite !tone_scores_table, !count_app.
    unfold Tone.table. simpl.
    repeat (destruct (String.eqb tone _); [congruence|]). discriminate.
  - intros tone score. rewrite tone_scores_table. unfold Tone.table. simpl.
    pose proof (count_nonneg Tone.professional posts).
    pose proof (count_nonneg Tone.casual posts).
    pose proof (count_nonneg Tone.formal posts).
    pose proof (count_nonneg Tone.friendly posts).
    pose proof (count_bound Tone.professional posts).
    pose proof (count_bound Tone.casual posts).
    pose proof (count_bound Tone.formal posts).
    pose proof (count_bound Tone.friendly posts).
    repeat (destruct (String.eqb tone _);
            [intros Hs; injection Hs as <-; simpl in *; lia|]).
    discriminate.
Qed.

End ToneOrder.

(* ================================================================= *)
(** ** Topics *)

Section TopicsOrder.

Lemma counter_add_get w w' c :
  dict_get w' (CA.counter_add w c)
  = if String.eqb w' w
    then Some (match dict_get w c with Some n => n + 1 | None => 1 end)
    else dict_get w' c.
Proof.
  induction c as [|[k n] c IH]; simpl.
  - destruct (String.eqb w' w); reflexivity.
  - destruct (String.eqb w k) eqn:E; simpl.
    + apply String.eqb_eq in E. subst k.
      destruct (String.eqb w' w); reflexivity.
    + rewrite IH. destruct (String.eqb w' k) eqn:E'; [|reflexivity].
      apply String.eqb_eq in E'. subst k.
      destruct (String.eqb w' w) eqn:E''; [|reflexivity].
      apply String.eqb_eq in E''. subst w'. rewrite String.eqb_refl in E. discriminate.
Qed.

Lemma counter_add_keys w c :
  map fst (CA.counter_add w c)
  = if dict_mem w (map fst c) then map fst c else (map fst c ++ [w])%list.
Proof.
  unfold dict_mem. induction c as [|[k n] c IH]; simpl; [reflexivity|].
  destruct (String.eqb w k) eqn:E; simpl; [reflexivity|].
  rewrite IH. now destruct (existsb (String.eqb w) (map fst c)).
Qed.

Lemma counter_add_counts w c seen :
  Topics.counts c seen -> Topics.counts (CA.counter_add w c) (seen ++ [w]).
Proof.
  intros [Hnd Hget]. split.
  - rewrite counter_add_keys. destruct (dict_mem w (map fst c)) eqn:Hm; [exact Hnd|].
    apply NoDup_app; [exact Hnd | repeat constructor; intros [] |].
    intros k Hk [<-|[]]. apply dict_mem_In in Hk. congruence.
  - intros w'. rewrite counter_add_get, !Hget. unfold Topics.occurrences.
    rewrite count_occ_app. simpl.
    destruct (String.eqb w' w) eqn:E.
    + apply String.eqb_eq in E. subst w'.
      destruct (string_dec w w) as [_|n]; [|congruence].
      destruct (in_dec string_dec w (seen ++ [w])) as [_|n];
        [|exfalso; apply n, in_or_app; right; now left].
      destruct (in_dec string_dec w seen) as [Hin|Hnin].
      * f_equal. lia.
      * apply (count_occ_not_In string_dec) in Hnin. rewrite Hnin. reflexivity.
    + apply String.eqb_neq in E.
      destruct (string_dec w w') as [->|_]; [congruence|].
      rewrite Nat.add_0_r.
      destruct (in_dec string_dec w' seen) as [Hin|Hnin];
        destruct (in_dec string_dec w' (seen ++ [w])) as [Hin'|Hnin']; try reflexivity.
      * exfalso. apply Hnin', in_or_app. now left.
      * exfalso. apply in_app_or in Hin' as [H|[H|[]]]; [auto | congruence].
Qed.

Lemma Counter_counts words : Topics.counts (CA.Counter words) words.
Proof.
  unfold CA.Counter.
  assert (H : forall ws c seen,
             Topics.counts c seen ->
             Topics.counts (fold_left (fun c w => CA.counter_add w c) ws c) (seen ++ ws)).
  { induction ws as [|w ws IH]; intros c seen Hc; simpl.
    - now rewrite app_nil_r.
    - replace (seen ++ w :: ws)%list with ((seen ++ [w]) ++ ws)%list
        by (now rewrite <- app_assoc).
      apply IH. now apply counter_add_counts. }
  apply (H words [] []). split; [constructor | reflexivity].
Qed.

Lemma NoDup_dict_get {V} (c : list (string * V)) w n :
  NoDup (map fst c) -> In (w, n) c -> dict_get w c = Some n.
Proof.
  induction c as [|[k m] c IH]; intros Hnd Hin; [contradiction|].
  simpl in *. inversion Hnd as [|? ? Hk Hc]; subst.
  destruct Hin as [Heq|Hin].
  - injection Heq as -> ->. now rewrite String.eqb_refl.
  - destruct (String.eqb w k) eqn:E; [|now apply IH].
    apply String.eqb_eq in E. subst k. exfalso. apply Hk.
    apply in_map_iff. now exists (w, n).
Qed.

Lemma insert_by_count_perm x l : Permutation (x :: l) (CA.insert_by_count x l).
Proof.
  induction l as [|y l IH]; simpl; [reflexivity|].
  destruct (snd y <? snd x); [reflexivity|].
  rewrite perm_swap. now constructor.
Qed.

Lemma insert_by_count_sorted x l :
  StronglySorted (fun a b : string * Z => snd b <= snd a) l ->
  StronglySorted (fun a b : string * Z => snd b <= snd a) (CA.insert_by_count x l).
Proof.
  induction l as [|y l IH]; intros Hs; simpl.
  - repeat constructor.
  - inversion Hs as [|? ? Hl Hy]; subst.
    destruct (snd y <? snd x) eqn:E.
    + apply Z.ltb_lt in E. constructor; [exact Hs|].
      constructor; [lia|]. apply Forall_forall. intros z Hz.
      rewrite Forall_forall in Hy. specialize (Hy z Hz). lia.
    + apply Z.ltb_ge in E. constructor; [now apply IH|].
      apply Forall_forall. intros z Hz.
      apply (Permutation_in z (Permutation_sym (insert_by_count_perm x l))) in Hz.
      destruct Hz as [<-|Hz]; [exact E|].
      rewrite Forall_forall in Hy. now apply Hy.
Qed.

Lemma sort_by_count c :
  Permutation c (fold_left (fun sorted x => CA.insert_by_count x sorted) c [])
  /\ StronglySorted (fun a b : string * Z => snd b <= snd a)
                    (fold_left (fun sorted x => CA.insert_by_count x sorted) c []).
Proof.
  assert (H : forall l acc,
             StronglySorted (fun a b : string * Z => snd b <= snd a) acc ->
             Permutation (acc ++ l)
                         (fold_left (fun sorted x => CA.insert_by_count x sorted) l acc)
             /\ StronglySorted (fun a b : string * Z => snd b <= snd a)
                  (fold_left (fun sorted x => CA.insert_by_count x sorted) l acc)).
  { induction l as [|x l IH]; intros acc Hacc; simpl.
    - now rewrite app_nil_r.
    - destruct (IH (CA.insert_by_count x acc) (insert_by_count_sorted x acc Hacc))
        as [Hp Hs].
      split; [|exact Hs]. rewrite <- Hp.
      rewrite <- (insert_by_count_perm x acc). simpl. symmetry.
      apply Permutation_middle. }
  apply (H c []). constructor.
Qed.

Lemma In_firstn {A} n (l : list A) x : In x (firstn n l) -> In x l.
Proof.
  intros H. rewrite <- (firstn_skipn n l). apply in_or_app. now left.
Qed.

Lemma firstn_sorted {A} (R : A -> A -> Prop) n (l : list A) :
  StronglySorted R l -> StronglySorted R (firstn n l).
Proof.
  revert l. induction n as [|n IH]; intros l Hs; [constructor|].
  destruct l as [|a l]; [constructor|]. simpl.
  inversion Hs as [|? ? Hl Ha]; subst. constructor; [now apply IH|].
  apply Forall_forall. intros x Hx. rewrite Forall_forall in Ha.
  apply Ha. eapply In_firstn. exact Hx.
Qed.

Lemma firstn_NoDup {A} n (l : list A) : NoDup l -> NoDup (firstn n l).
Proof.
  intros H. rewrite <- (firstn_skipn n l) in H. now apply NoDup_app_remove_r in H.
Qed.

(** X10. The topics are at most ten distinct noun tokens of the posts,
    listed by decreasing number of occurrences; when the posts have at most
    ten distinct nouns, every noun is a topic. *)
Theorem topics_most_common (self : CA.agent) (posts : list string) :
  (List.length (CA._extract_topics self posts) <= 10)%nat
  /\ NoDup (CA._extract_topics self posts)
  /\ (forall topic, In topic (CA._extract_topics self posts) ->
                    In topic (Topics.nouns self posts))
  /\ StronglySorted
       (fun a b => Topics.occurrences (Topics.nouns self posts) b
                   <= Topics.occurrences (Topics.nouns self posts) a)
       (CA._extract_topics self posts)
  /\ ((List.length (nodup string_dec (Topics.nouns self posts)) <= 10)%nat ->
      forall noun, In noun (Topics.nouns self posts) ->
                   In noun (CA._extract_topics self posts)).
Proof.
  change (CA._extract_topics self posts)
    with (map fst (CA.most_common 10 (CA.Counter (Topics.nouns self posts)))).
  set (words := Topics.nouns self posts).
  destruct (Counter_counts words) as [Hnd Hget].
  destruct (sort_by_count (CA.Counter words)) as [Hperm Hsorted].
  unfold CA.most_common.
  set (sorted := fold_left (fun sorted x => CA.insert_by_count x sorted)
                           (CA.Counter words) []) in *.
  assert (Hkeys : forall w, In w (map fst sorted) <-> In w words).
  { intros w. rewrite <- (Permutation_map fst Hperm). split.
    - intros Hin. apply dict_mem_In, dict_mem_get in Hin as [n Hn].
      rewrite Hget in Hn. now destruct (in_dec string_dec w words).
    - intros Hin. apply dict_mem_In, dict_mem_get.
      rewrite Hget. destruct (in_dec string_dec w words); [eauto | contradiction]. }
  assert (Hval : forall w n, In (w, n) sorted -> n = Topics.occurrences words w).
  { intros w n Hin. apply (Permutation_in _ (Permutation_sym Hperm)) in Hin.
    pose proof (NoDup_dict_get (CA.Counter words) w n Hnd Hin) as Hd.
    rewrite Hget in Hd. destruct (in_dec string_dec w words); congruence. }
  assert (Hnd' : NoDup (map fst sorted))
    by (rewrite <- (Permutation_map fst Hperm); exact Hnd).
  split; [|split; [|split; [|split]]].
  - rewrite length_map, length_firstn. lia.
  - rewrite <- firstn_map. now apply firstn_NoDup.
  - intros topic Hin. apply Hkeys. rewrite <- firstn_map in Hin.
    eapply In_firstn. exact Hin.
  - pose proof (firstn_sorted _ 10 sorted Hsorted) as Hs.
    assert (Hsub : forall p, In p (firstn 10 sorted) -> In p sorted)
      by (intros p; apply In_firstn).
    induction (firstn 10 sorted) as [|[w n] l IH]; simpl; [constructor|].
    inversion Hs as [|? ? Hl Ha]; subst. constructor.
    + apply IH; [exact Hl|]. intros p Hp. apply Hsub. now right.
    + apply Forall_forall. intros w' Hw'.
      apply in_map_iff in Hw' as ([w'' n'] & <- & Hin'). simpl.
      rewrite Forall_forall in Ha. specialize (Ha _ Hin'). simpl in Ha.
      rewrite <- (Hval w n) by (apply Hsub; now left).
      rewrite <- (Hval w'' n') by (apply Hsub; now right). exact Ha.
  - intros Hlen noun Hin.
    assert (Hall : firstn 10 sorted = sorted).
    { apply firstn_all2. rewrite <- (length_map fst sorted).
      etransitivity; [|exact Hlen].
      apply NoDup_incl_length; [exact Hnd'|].
      intros w Hw. apply nodup_In. now apply Hkeys. }
    rewrite Hall. now apply Hkeys.
Qed.

End TopicsOrder.

(* ================================================================= *)
(** ** Sequencing of a run *)

Section Sequencing.

Variable self : OA.agent.

Lemma generate_text_content_inv analysis generation_params platform t r :
  OA._generate_text_content self analysis generation_params platform = (t, r) ->
  (t = [] /\ (forall params, generation_params <> VDict params) /\ exists e, r = Raise e)
  \/ (exists params,
         generation_params = VDict params /\
         t = [OA.CallText] /\
         r = OA.text_generator self
               {| TG.brand_analysis := Some analysis;
                  TG.num_posts := Some (dict_get_default "num_posts" params (VInt 1));
                  TG.post_type := Some (dict_get_default "post_type" params (VStr "general"));
                  TG.target_platform := Some platform |}).
Proof.
  unfold OA._generate_text_content, OA.lift, OA.call, OA.mbind.
  destruct generation_params; simpl;
    try (intros H; injection H as <- <-; left;
         split; [reflexivity|]; split; [discriminate | eauto]).
  intros H. injection H as <- <-. right. eauto.
Qed.

Lemma compile_length tc vc analysis :
  List.length vc = List.length (TG.generated_posts tc) ->
  OA.total_posts (OA.statistics (OA._compile_content_package self tc vc analysis))
  = CA.len (TG.generated_posts tc).
Proof.
  intros Hlen. unfold OA._compile_content_package. simpl. unfold CA.len.
  now rewrite length_map, length_combine, Hlen, Nat.min_id.
Qed.

(** X12. The sub-agents are called in a fixed order.  A run that returns a
    package called the analysis agent once, then the text agent once, then
    the visual agent once per post of the package, in the order of the
    posts.  A run that raises called no visual agent at all: it stopped at
    validation without any call, or after the analysis call, or after the
    text call; and an error of the analysis agent reaches the caller
    unchanged. *)
Theorem calls_in_order (input_data : list (string * pyval)) :
  (forall t package,
      OA.process self input_data = (t, Ok package) ->
      t = OA.CallAnalysis :: OA.CallText
          :: map OA.CallVisual
               (seq 0 (Z.to_nat (OA.total_posts (OA.statistics package)))))
  /\ (forall t e,
         OA.process self input_data = (t, Raise e) ->
         t = [] \/ t = [OA.CallAnalysis] \/ t = [OA.CallAnalysis; OA.CallText])
  /\ (forall existing_posts e,
         BaseAgent.validate_input (map fst input_data) OA.required_fields = true ->
         dict_get "existing_posts" input_data = Some existing_posts ->
         OA.content_analyzer self [("posts", existing_posts)] = Raise e ->
         OA.process self input_data = ([OA.CallAnalysis], Raise e)).
Proof.
  split; [|split].
  - intros t package Hrun.
    apply process_completed in Hrun
      as (a & b & c & d & analysis & tc & vc & t2 & t3 &
          _ & _ & _ & _ & _ & Htext & Hvis & -> & ->).
    destruct (generate_visual_content_inv _ _ _ _ _ _ Hvis) as (specs & _ & Hvc & ->).
    destruct (generate_text_content_inv _ _ _ _ _ Htext)
      as [(_ & _ & e & He)|(params & _ & -> & _)]; [discriminate|].
    rewrite compile_length by (subst vc; apply visual_loop_length).
    unfold CA.len. now rewrite Nat2Z.id.
  - intros t e. unfold OA.process.
    destruct (BaseAgent.validate_input _ _) eqn:Hv; simpl;
      [|intros H; injection H as <- _; now left].
    apply validate_request in Hv as (a & b & c & d & Ha & Hb & Hc & Hd).
    unfold OA.item, OA._analyze_content, OA.call, OA.lift. rewrite Ha. simpl.
    destruct (OA.content_analyzer self _) as [analysis|e']; simpl;
      [|intros H; injection H as <- _; right; now left].
    unfold OA.generate, OA.item, OA.lift. rewrite Hc, Hd, Hb. simpl.
    destruct (OA._generate_text_content self analysis c d) as [t2 r2] eqn:Htext.
    destruct (generate_text_content_inv _ _ _ _ _ Htext)
      as [(-> & _ & e2 & ->)|(params & _ & -> & _)]; simpl.
    + intros H. injection H as <- _. right. now left.
    + destruct r2 as [tc|e2]; simpl; [|intros H; injection H as <- _; right; now right].
      unfold OA._generate_visual_content, OA.lift.
      destruct (OA._get_platform_specs self d) as [specs|e3]; simpl.
      * discriminate.
      * intros H. injection H as <- _. right. now right.
  - intros existing_posts e Hv Ha He. unfold OA.process. rewrite Hv. simpl.
    unfold OA.item, OA._analyze_content, OA.call, OA.lift. rewrite Ha. simpl.
    now rewrite He.
Qed.

End Sequencing.

(* ================================================================= *)
(** ** The package of a run of the three agents *)

Section Pipeline.

Variables (platform_configs : list (string * pyval))
          (analyzer : CA.agent) (text : TG.agent) (visual : VG.agent)
          (now : string).

Let self : OA.agent :=
  OA._initialize_agents platform_configs analyzer text visual now.

Lemma text_batch_inv (input_data : TG.TextInput) batch :
  TG.process text input_data = Ok batch ->
  exists analysis num_posts post_type platform n,
    TG.brand_analysis input_data = Some analysis /\
    TG.num_posts input_data = Some num_posts /\
    TG.post_type input_data = Some post_type /\
    TG.target_platform input_data = Some platform /\
    as_int num_posts = Some n /\
    TG.generated_posts batch
    = flat_map (TG.attempt text (TG._create_system_prompt analysis post_type platform))
               (seq 0 (Z.to_nat n)) /\
    TG.metadata batch
    = {| TG.meta_post_type := post_type;
         TG.meta_target_platform := platform;
         TG.success_rate :=
           if 0 <? n then (inject_Z (CA.len (TG.generated_posts batch)) / inject_Z n)%Q
           else 0%Q |}.
Proof.
  unfold TG.process.
  destruct (BaseAgent.validate_input _ _); simpl; [|discriminate].
  destruct (TG.brand_analysis input_data) as [a|],
           (TG.num_posts input_data) as [np|],
           (TG.post_type input_data) as [pt|],
           (TG.target_platform input_data) as [tp|]; try discriminate.
  destruct np as [|b|z| | |]; simpl; try discriminate.
  - destruct b; simpl; intros H; injection H as <-;
      [exists a, (VBool true), pt, tp, 1 | exists a, (VBool false), pt, tp, 0];
      repeat split; reflexivity.
  - destruct (0 <? z) eqn:Hz; simpl; intros H; injection H as <-;
      exists a, (VInt z), pt, tp, z; simpl; rewrite Hz; repeat split; reflexivity.
Qed.

Lemma filter_none {A} (f : A -> bool) (l : list A) :
  (forall x, In x l -> f x = false) -> filter f l = [].
Proof.
  induction l as [|a l IH]; intros H; simpl; [reflexivity|].
  rewrite (H a (or_introl eq_refl)). apply IH. intros x Hx. apply H. now right.
Qed.

Lemma combine_visual_loop tc bg specs posts : forall i post v,
  In (post, v) (combine posts (OA.visual_loop self tc bg specs i posts)) ->
  exists k, v = OA.visual_attempt self tc bg specs k post.
Proof.
  induction posts as [|p posts IH]; intros i post v Hin; simpl in Hin; [contradiction|].
  destruct Hin as [Heq|Hin].
  - injection Heq as <- <-. eauto.
  - exact (IH (S i) post v Hin).
Qed.

Lemma visual_asset_inv (i : nat) (input_data : VG.VisualInput) asset :
  VG.process visual i input_data = Ok asset ->
  exists text_content brand_guidelines,
    VG.text_content input_data = Some text_content /\
    VG.brand_guidelines input_data = Some brand_guidelines /\
    (forall prompt,
        VG.prompt_used (VG.metadata asset) = Some prompt ->
        VG._create_image_prompt text_content brand_guidelines
          (VG.or_empty (VG.style_preferences input_data)) = Ok prompt /\
        VG.meta_platform_specs (VG.metadata asset)
        = Some (VG.or_empty (VG.platform_specs input_data))) /\
    (VG.client visual = None ->
     VG.generation_successful (VG.metadata asset) = false /\
     exists description, VG.error (VG.metadata asset) = Some description /\
                         description <> "").
Proof.
  unfold VG.process.
  destruct (BaseAgent.validate_input _ _); simpl; [|discriminate].
  destruct (VG.text_content input_data) as [t|]; [|discriminate].
  destruct (VG.brand_guidelines input_data) as [b|]; [|discriminate].
  intros H. exists t, b. split; [reflexivity|]. split; [reflexivity|].
  unfold VG.try_generate, VG._generate_image in H.
  destruct (VG._create_image_prompt t b _) as [prompt|e]; simpl in H.
  - destruct (VG.client visual) as [api|].
    + split; [|discriminate].
      destruct (api i prompt) as [[|b64 rest]|e];
        [| destruct (VG.b64decode visual b64) as [[|x xs]|e] |];
        injection H as <-; simpl; intros p Hp; injection Hp as <-; now split.
    + injection H as <-. simpl. split.
      * intros p Hp. injection Hp as <-. now split.
      * intros _. split; [reflexivity|]. eexists. split; [reflexivity | discriminate].
  - injection H as <-. simpl. split; [discriminate|].
    intros _. split; [reflexivity|]. eexists. split; [reflexivity | discriminate].
Qed.

(** The stages of a completed run of the three agents. *)
Lemma pipeline_completed (input_data : list (string * pyval)) t package :
  OA.process self input_data = (t, Ok package) ->
  exists existing_posts brand_guidelines params platform analysis tc specs,
    dict_get "existing_posts" input_data = Some existing_posts /\
    dict_get "brand_guidelines" input_data = Some brand_guidelines /\
    dict_get "generation_params" input_data = Some (VDict params) /\
    dict_get "platform" input_data = Some platform /\
    CA.process analyzer [("posts", existing_posts)] = Ok analysis /\
    TG.process text
      {| TG.brand_analysis := Some analysis;
         TG.num_posts := Some (dict_get_default "num_posts" params (VInt 1));
         TG.post_type := Some (dict_get_default "post_type" params (VStr "general"));
         TG.target_platform := Some platform |} = Ok tc /\
    OA._get_platform_specs self platform = Ok specs /\
    package = OA._compile_content_package self tc
                (OA.visual_loop self tc brand_guidelines specs 0 (TG.generated_posts tc))
                analysis.
Proof.
  intros Hrun.
  apply process_completed in Hrun
    as (a & b & c & d & analysis & tc & vc & t2 & t3 &
        Ha & Hb & Hc & Hd & Han & Htext & Hvis & -> & _).
  destruct (generate_visual_content_inv _ _ _ _ _ _ Hvis) as (specs & Hs & -> & _).
  destruct (generate_text_content_inv _ _ _ _ _ _ Htext)
    as [(_ & _ & e & He)|(params & -> & _ & Htc)]; [discriminate|].
  exists a, b, params, d, analysis, tc, specs. repeat split; auto.
Qed.

(** X13. A run returns a package only if its analysis succeeded, its
    [generation_params] is a dictionary whose [num_posts] (1 when absent) is
    an integer, and its platform identifier can be used as a dictionary
    key. *)
Theorem package_requires (input_data : list (string * pyval)) t package :
  OA.process self input_data = (t, Ok package) ->
  exists existing_posts analysis params platform requested,
    dict_get "existing_posts" input_data = Some existing_posts /\
    CA.process analyzer [("posts", existing_posts)] = Ok analysis /\
    dict_get "generation_params" input_data = Some (VDict params) /\
    as_int (dict_get_default "num_posts" params (VInt 1)) = Some requested /\
    dict_get "platform" input_data = Some platform /\
    hashable platform = true.
Proof.
  intros Hrun.
  apply pipeline_completed in Hrun
    as (a & b & params & d & analysis & tc & specs &
        Ha & Hb & Hc & Hd & Han & Htc & Hs & _).
  apply text_batch_inv in Htc as (_ & np & _ & _ & n & _ & Hnp & _ & _ & Hn & _).
  simpl in Hnp. injection Hnp as <-.
  exists a, analysis, params, d, n. repeat split; auto.
  unfold OA._get_platform_specs in Hs. now destruct (hashable d).
Qed.

(** X14. The statistics and the success rate of a package agree: the package
    has at most as many posts as were requested, and every bundle records
    the same success rate, which is the number of posts of the package
    divided by the requested count. *)
Theorem success_rate_matches_statistics (input_data : list (string * pyval)) t package :
  OA.process self input_data = (t, Ok package) ->
  exists params requested,
    dict_get "generation_params" input_data = Some (VDict params) /\
    as_int (dict_get_default "num_posts" params (VInt 1)) = Some requested /\
    0 <= OA.total_posts (OA.statistics package) <= Z.max 0 requested /\
    forall bundle,
      In bundle (OA.posts package) ->
      0 < requested /\
      (TG.success_rate (OA.text_metadata (OA.metadata bundle))
       == inject_Z (OA.total_posts (OA.statistics package)) / inject_Z requested)%Q.
Proof.
  intros Hrun.
  apply pipeline_completed in Hrun
    as (a & b & params & d & analysis & tc & specs &
        _ & _ & Hc & _ & _ & Htc & _ & ->).
  apply text_batch_inv in Htc
    as (an & np & pt & tp & n & _ & Hnp & _ & _ & Hn & Hposts & Hmeta).
  simpl in Hnp. injection Hnp as <-.
  exists params, n. split; [exact Hc|]. split; [exact Hn|].
  rewrite (compile_length self) by apply visual_loop_length.
  assert (Hle : CA.len (TG.generated_posts tc) <= Z.of_nat (Z.to_nat n)).
  { rewrite Hposts. unfold CA.len.
    pose proof (attempts_length text (TG._create_system_prompt an pt tp)
                  (seq 0 (Z.to_nat n))) as H.
    rewrite length_seq in H. lia. }
  split; [unfold CA.len in *; lia|].
  intros bundle Hin. unfold OA._compile_content_package in Hin. simpl in Hin.
  apply in_map_iff in Hin as ([post v] & <- & Hin). simpl.
  assert (Hpos : 0 < n).
  { apply in_combine_l in Hin.
    destruct (TG.generated_posts tc); [contradiction|].
    unfold CA.len in Hle. simpl in Hle. lia. }
  split; [exact Hpos|]. rewrite Hmeta. simpl.
  apply Z.ltb_lt in Hpos. rewrite Hpos. apply Qeq_refl.
Qed.

Lemma no_client_bundle tc brand_guidelines specs analysis bundle :
  VG.client visual = None ->
  In bundle (OA.posts (OA._compile_content_package self tc
               (OA.visual_loop self tc brand_guidelines specs 0 (TG.generated_posts tc))
               analysis)) ->
  OA.visual bundle = None /\
  exists m description,
    OA.visual_metadata (OA.metadata bundle) = Some m /\
    VG.generation_successful m = false /\
    VG.error m = Some description /\ description <> "".
Proof.
  intros Hc Hin. unfold OA._compile_content_package in Hin. simpl in Hin.
  apply in_map_iff in Hin as ([post v] & <- & Hin). simpl.
  apply combine_visual_loop in Hin as [k ->].
  unfold OA.visual_attempt. subst self. simpl.
  destruct (process_total visual k
              {| VG.text_content := Some post;
                 VG.brand_guidelines := Some brand_guidelines;
                 VG.style_preferences :=
                   Some (OA._get_style_preferences (TG.metadata tc));
                 VG.platform_specs := Some specs |} post brand_guidelines
              eq_refl eq_refl)
    as (asset & Hp & _).
  rewrite Hp. simpl.
  apply visual_asset_inv in Hp as (_ & _ & _ & _ & _ & Hno).
  destruct (Hno Hc) as (Hf & description & He & Hne).
  rewrite Hf. split; [reflexivity|]. now exists (VG.metadata asset), description.
Qed.

(** X15. When the visual agent has no client (no API key), no bundle of a
    package has a visual: [posts_with_visuals] is 0, and every bundle
    records a failed generation with a non-empty error description. *)
Theorem no_credential_no_visuals (input_data : list (string * pyval)) t package :
  VG.client visual = None ->
  OA.process self input_data = (t, Ok package) ->
  OA.posts_with_visuals (OA.statistics package) = 0 /\
  forall bundle,
    In bundle (OA.posts package) ->
    OA.visual bundle = None /\
    exists m description,
      OA.visual_metadata (OA.metadata bundle) = Some m /\
      VG.generation_successful m = false /\
      VG.error m = Some description /\ description <> "".
Proof.
  intros Hc Hrun.
  apply pipeline_completed in Hrun
    as (a & b & params & d & analysis & tc & specs &
        _ & _ & _ & _ & _ & _ & _ & ->).
  split; [|intros bundle Hin; now apply (no_client_bundle tc b specs analysis)].
  change (OA.posts_with_visuals _)
    with (CA.len (filter (fun p => OA.is_not_None (OA.visual p))
            (OA.posts (OA._compile_content_package self tc
               (OA.visual_loop self tc b specs 0 (TG.generated_posts tc)) analysis)))).
  rewrite filter_none; [reflexivity|].
  intros bundle Hin.
  destruct (no_client_bundle tc b specs analysis bundle Hc Hin) as [-> _]. reflexivity.
Qed.

(** X16. When the requested count is zero or negative, a run whose analysis
    succeeded returns the empty package: no post, no visual call, both
    statistics 0, and no error. *)
Theorem nothing_requested (input_data : list (string * pyval))
        existing_posts brand_guidelines params platform analysis requested :
  dict_get "existing_posts" input_data = Some existing_posts ->
  dict_get "brand_guidelines" input_data = Some brand_guidelines ->
  dict_get "generation_params" input_data = Some (VDict params) ->
  dict_get "platform" input_data = Some platform ->
  CA.process analyzer [("posts", existing_posts)] = Ok analysis ->
  as_int (dict_get_default "num_posts" params (VInt 1)) = Some requested ->
  requested <= 0 ->
  hashable platform = true ->
  OA.process self input_data
  = ([OA.CallAnalysis; OA.CallText],
     Ok {| OA.posts := [];
           OA.statistics := {| OA.total_posts := 0;
                               OA.posts_with_visuals := 0;
                               OA.generation_timestamp := now |} |}).
Proof.
  intros Ha Hb Hc Hd Han Hn Hle Hh.
  assert (Hv : BaseAgent.validate_input (map fst input_data) OA.required_fields = true).
  { apply validate_request. now exists existing_posts, brand_guidelines, (VDict params), platform. }
  unfold OA.process. rewrite Hv. simpl.
  unfold OA.item, OA._analyze_content, OA.call, OA.lift. rewrite Ha. simpl.
  subst self. simpl. rewrite Han. simpl.
  unfold OA.generate, OA.item, OA.lift. rewrite Hc, Hd, Hb. simpl.
  unfold OA._generate_text_content, OA.lift, OA.call. simpl.
  unfold TG.process. simpl.
  destruct (dict_get_default "num_posts" params (VInt 1)) as [|x|z| | |];
    try discriminate; simpl in Hn; injection Hn as <-.
  - destruct x; [lia|]. simpl.
    unfold OA._generate_visual_content, OA._get_platform_specs, OA.lift.
    rewrite Hh. simpl. destruct platform; reflexivity.
  - assert (Hz : Z.to_nat z = 0%nat) by lia.
    assert (Hlt : (0 <? z) = false) by (apply Z.ltb_ge; lia).
    simpl. rewrite Hz, Hlt. simpl.
    unfold OA._generate_visual_content, OA._get_platform_specs, OA.lift.
    rewrite Hh. simpl. destruct platform; reflexivity.
Qed.

(** X17. Every bundle that records an image prompt records the prompt built
    from its own text and the brand guidelines of the request, with the post
    type of the generation parameters ("general" when absent) as mood, and
    the specification configured for the platform of the request (empty
    when the platform is not configured). *)
Theorem bundle_prompt_provenance (input_data : list (string * pyval)) t package :
  OA.process self input_data = (t, Ok package) ->
  exists brand_guidelines params platform_specs,
    dict_get "brand_guidelines" input_data = Some brand_guidelines /\
    dict_get "generation_params" input_data = Some (VDict params) /\
    (forall name, dict_get "platform" input_data = Some (VStr name) ->
                  platform_specs = dict_get_default name platform_configs (VDict [])) /\
    forall bundle m prompt,
      In bundle (OA.posts package) ->
      OA.visual_metadata (OA.metadata bundle) = Some m ->
      VG.prompt_used m = Some prompt ->
      VG._create_image_prompt (OA.text bundle) brand_guidelines
        (OA._get_style_preferences (OA.text_metadata (OA.metadata bundle))) = Ok prompt /\
      VG.mood prompt = dict_get_default "post_type" params (VStr "general") /\
      VG.meta_platform_specs m = Some platform_specs.
Proof.
  intros Hrun.
  apply pipeline_completed in Hrun
    as (a & b & params & d & analysis & tc & specs &
        _ & Hb & Hc & Hd & _ & Htc & Hs & ->).
  apply text_batch_inv in Htc
    as (an & np & pt & tp & n & _ & _ & Hpt & _ & _ & _ & Hmeta).
  simpl in Hpt. injection Hpt as <-.
  exists b, params, specs. split; [exact Hb|]. split; [exact Hc|]. split.
  - intros name Hname. rewrite Hd in Hname. injection Hname as ->.
    unfold OA._get_platform_specs in Hs. simpl in Hs. now injection Hs as <-.
  - intros bundle m prompt Hin Hm Hp.
    unfold OA._compile_content_package in Hin. simpl in Hin.
    apply in_map_iff in Hin as ([post v] & <- & Hin). simpl in *.
    apply combine_visual_loop in Hin as [k ->].
    unfold OA.visual_attempt in Hm. subst self. simpl in Hm.
    destruct (VG.process visual k _) as [asset|e] eqn:Hproc; [|discriminate].
    simpl in Hm. injection Hm as <-.
    apply visual_asset_inv in Hproc as (t0 & b0 & Ht0 & Hb0 & Hprompt & _).
    simpl in Ht0, Hb0. injection Ht0 as <-. injection Hb0 as <-.
    destruct (Hprompt prompt Hp) as [Hcreate Hspecs]. simpl in Hcreate, Hspecs.
    split; [exact Hcreate|]. split; [|exact Hspecs].
    unfold VG._create_image_prompt in Hcreate. rewrite Hmeta in Hcreate.
    destruct (method_get b "colors" _); simpl in Hcreate; [|discriminate].
    destruct (method_get b "style" _); simpl in Hcreate; [|discriminate].
    destruct (if truthy _ then _ else _); simpl in Hcreate; [|discriminate].
    injection Hcreate as <-. reflexivity.
Qed.

End Pipeline.

(* ================================================================= *)
(** ** A run without API key *)

Section WithoutKey.

Variables (platform_configs : list (string * pyval))
          (analyzer : CA.agent)
          (OpenAI_chat : string -> result TG.OpenAIClient)
          (OpenAI_images : string -> result VG.OpenAIClient)
          (b64decode : string -> result bytes)
          (pil_pipeline : bytes -> pyval -> result bytes)
          (mock_image : bytes)
          (now : string).

Lemma attempts_all_fail (text : TG.agent) api prompt indices :
  TG.client text = Some api ->
  (forall i p, exists e, api i p = Raise e) ->
  flat_map (TG.attempt text prompt) indices = [].
Proof.
  intros Hc Hfail. induction indices as [|i indices IH]; [reflexivity|].
  cbn [flat_map]. rewrite IH, app_nil_r.
  unfold TG.attempt, TG._generate_post. rewrite Hc.
  destruct (Hfail i prompt) as [e ->]. reflexivity.
Qed.

(** X19. Completed runs of an orchestrator built from the environment.
    When the environment holds no API key, or an empty one, neither
    generation agent gets a client, every bundle of the package has the
    placeholder post as text and no visual, and [posts_with_visuals] is 0.
    When it holds a key with which the client can be constructed, the text
    agent keeps that client whatever the connection test answers; if the
    service then fails every request, as it does for a key it rejects, the
    package holds no post at all: there is no fall back to the placeholder
    post. *)
Theorem run_without_api_key (api_key : option string)
        (input_data : list (string * pyval)) t package :
  OA.process
    (Environment.orchestrator platform_configs analyzer OpenAI_chat OpenAI_images
       b64decode pil_pipeline mock_image now api_key)
    input_data = (t, Ok package) ->
  (api_key = None \/ api_key = Some "" ->
   TG.client (TG._initialize_llm api_key OpenAI_chat) = None /\
   VG.client (VG._initialize_image_generator api_key OpenAI_images b64decode
                pil_pipeline mock_image) = None /\
   OA.posts_with_visuals (OA.statistics package) = 0 /\
   forall bundle,
     In bundle (OA.posts package) ->
     OA.text bundle = TG._generate_mock_post /\ OA.visual bundle = None)
  /\ (forall key c,
         api_key = Some key -> key <> "" -> OpenAI_chat key = Ok c ->
         TG.client (TG._initialize_llm api_key OpenAI_chat) = Some (TG.chat c) /\
         ((forall i prompt, exists e, TG.chat c i prompt = Raise e) ->
          OA.posts package = [] /\
          OA.total_posts (OA.statistics package) = 0 /\
          OA.posts_with_visuals (OA.statistics package) = 0)).
Proof.
  unfold Environment.orchestrator. intros Hrun.
  set (text := TG._initialize_llm api_key OpenAI_chat) in *.
  set (visual := VG._initialize_image_generator api_key OpenAI_images b64decode
                   pil_pipeline mock_image) in *.
  apply pipeline_completed in Hrun
    as (a & b & params & d & analysis & tc & specs &
        _ & _ & _ & _ & _ & Htc & _ & ->).
  apply text_batch_inv in Htc as (an & np & pt & tp & n & _ & _ & _ & _ & _ & Hp & _).
  split.
  - intros Hkey.
    assert (Ht : TG.client text = None) by (destruct Hkey; subst; reflexivity).
    assert (Hv : VG.client visual = None) by (destruct Hkey; subst; reflexivity).
    split; [exact Ht|]. split; [exact Hv|].
    assert (Hbundle : forall bundle,
               In bundle (OA.posts (OA._compile_content_package
                            (OA._initialize_agents platform_configs analyzer text visual now)
                            tc
                            (OA.visual_loop
                               (OA._initialize_agents platform_configs analyzer text visual now)
                               tc b specs 0 (TG.generated_posts tc))
                            analysis)) ->
               OA.text bundle = TG._generate_mock_post /\ OA.visual bundle = None).
    { intros bundle Hin. split.
      - unfold OA._compile_content_package in Hin. simpl in Hin.
        apply in_map_iff in Hin as ([post v] & <- & Hin). simpl.
        apply in_combine_l in Hin.
        rewrite Hp in Hin. apply in_flat_map in Hin as (i & _ & Hi).
        apply attempt_posts in Hi as [_ Hi]. now rewrite Ht in Hi.
      - now destruct (no_client_bundle platform_configs analyzer text visual now
                        tc b specs analysis bundle Hv Hin). }
    split; [|exact Hbundle].
    change (OA.posts_with_visuals _)
      with (CA.len (filter (fun p => OA.is_not_None (OA.visual p))
              (OA.posts (OA._compile_content_package
                 (OA._initialize_agents platform_configs analyzer text visual now) tc
                 (OA.visual_loop
                    (OA._initialize_agents platform_configs analyzer text visual now)
                    tc b specs 0 (TG.generated_posts tc)) analysis)))).
    rewrite filter_none; [reflexivity|].
    intros bundle Hin. destruct (Hbundle bundle Hin) as [_ ->]. reflexivity.
  - intros key c -> Hne Hc.
    assert (Ht : TG.client text = Some (TG.chat c)).
    { subst text. unfold TG._initialize_llm.
      apply String.eqb_neq in Hne. rewrite Hne, Hc.
      destruct (TG.models_list c); reflexivity. }
    split; [exact Ht|]. intros Hfail.
    rewrite (attempts_all_fail text (TG.chat c) _ _ Ht Hfail) in Hp.
    unfold OA._compile_content_package. rewrite Hp. simpl. repeat split.
Qed.

End WithoutKey.

(* ================================================================= *)
(** ** Saving a package *)

Section Saving.

Variables (fs : Main.filesystem) (timestamp : string).

Lemma append_inj_l (a x y : string) : (a ++ x = a ++ y)%string -> x = y.
Proof.
  induction a as [|c a IH]; simpl; [auto|]. intros H. injection H as H. auto.
Qed.

Lemma list_ascii_of_append (a b : string) :
  list_ascii_of_string (a ++ b)
  = (list_ascii_of_string a ++ list_ascii_of_string b)%list.
Proof. induction a as [|c a IH]; simpl; [reflexivity | now rewrite IH]. Qed.

Lemma append_inj_r (c x y : string) : (x ++ c = y ++ c)%string -> x = y.
Proof.
  intros H. apply (f_equal list_ascii_of_string) in H.
  rewrite !list_ascii_of_append in H. apply app_inv_tail in H.
  apply (f_equal string_of_list_ascii) in H.
  now rewrite !string_of_list_ascii_of_string in H.
Qed.

Lemma revapp_nonnil d acc : acc <> Decimal.Nil -> Decimal.revapp d acc <> Decimal.Nil.
Proof.
  revert acc. induction d; intros acc Hacc; simpl; try exact Hacc;
    apply IHd; discriminate.
Qed.

Lemma to_little_uint_nonnil n : forall acc,
  acc <> Decimal.Nil -> Nat.to_little_uint n acc <> Decimal.Nil.
Proof.
  induction n as [|n IH]; intros acc Hacc; simpl; [exact Hacc|].
  apply IH. destruct acc; discriminate.
Qed.

Lemma to_uint_nonnil n : Nat.to_uint n <> Decimal.Nil.
Proof.
  unfold Nat.to_uint, Decimal.rev.
  assert (H : Nat.to_little_uint n Decimal.zero <> Decimal.Nil)
    by (apply to_little_uint_nonnil; discriminate).
  destruct (Nat.to_little_uint n Decimal.zero); try congruence;
    simpl; apply revapp_nonnil; discriminate.
Qed.

Lemma str_of_nat_inj i j : Main.str_of_nat i = Main.str_of_nat j -> i = j.
Proof.
  unfold Main.str_of_nat. intros H.
  apply (f_equal DecimalString.NilZero.uint_of_string) in H.
  rewrite !DecimalString.NilZero.usu in H by apply to_uint_nonnil.
  injection H as H. now apply DecimalNat.Unsigned.to_uint_inj.
Qed.

Lemma image_file_inj i j :
  Main.image_file timestamp i = Main.image_file timestamp j -> i = j.
Proof.
  unfold Main.image_file, Main.path_join. intros H.
  do 2 apply append_inj_l in H.
  apply (append_inj_l "image_") in H.
  apply append_inj_l in H. apply (append_inj_l "_") in H.
  apply append_inj_r in H. now apply str_of_nat_inj.
Qed.

Lemma write_file_leaves path c path' f :
  In (path', f) (fst (Main.write_file fs path c)) <->
  (exists u, Main.open_w fs path = Ok u) /\ path' = path /\
  f = match Main.write fs path c with
      | Ok _ => Main.Complete c
      | Raise _ => Main.Partial
      end.
Proof.
  unfold Main.write_file.
  destruct (Main.open_w fs path) as [u|e]; simpl.
  - destruct (Main.write fs path c) as [u'|e']; simpl; split.
    + intros [H|[]]. injection H as <- <-. eauto.
    + intros (_ & -> & ->). now left.
    + intros [H|[]]. injection H as <- <-. eauto.
    + intros (_ & -> & ->). now left.
  - split; [intros [] | intros ([u Hu] & _)]. discriminate.
Qed.

Lemma write_file_length path c :
  (List.length (fst (Main.write_file fs path c)) <= 1)%nat.
Proof.
  unfold Main.write_file.
  destruct (Main.open_w fs path); simpl; [|lia].
  destruct (Main.write fs path c); simpl; lia.
Qed.

Lemma save_images_spec posts : forall i0 path f,
  In (path, f) (Main.save_images fs timestamp i0 posts) <->
  exists k bundle image,
    nth_error posts k = Some bundle /\
    OA.visual bundle = Some image /\ image <> [] /\
    (exists u, Main.open_w fs (Main.image_file timestamp (i0 + k)) = Ok u) /\
    path = Main.image_file timestamp (i0 + k) /\
    f = match Main.write fs (Main.image_file timestamp (i0 + k)) (Main.Binary image) with
        | Ok _ => Main.Complete (Main.Binary image)
        | Raise _ => Main.Partial
        end.
Proof.
  induction posts as [|post posts IH]; intros i0 path f; simpl.
  - split; [intros [] | intros (k & b & im & H & _)]. destruct k; discriminate.
  - rewrite in_app_iff, (IH (S i0)). split.
    + intros [Hhead|(k & b & im & Hn & Hv & Hne & Hw & Hp & Hc)].
      * destruct (OA.visual post) as [[|x xs]|] eqn:Hv; try contradiction.
        apply write_file_leaves in Hhead as (Ho & -> & ->).
        exists 0%nat, post, (x :: xs). rewrite Nat.add_0_r.
        repeat split; auto. discriminate.
      * exists (S k), b, im. rewrite <- plus_n_Sm. simpl in *. repeat split; auto.
    + intros (k & b & im & Hn & Hv & Hne & Ho & Hp & Hc).
      destruct k as [|k]; simpl in Hn.
      * injection Hn as ->. left. rewrite Nat.add_0_r in *.
        rewrite Hv. destruct im as [|x xs]; [congruence|].
        apply write_file_leaves. subst. auto.
      * right. exists k, b, im. rewrite <- plus_n_Sm in *. simpl. eauto 10.
Qed.

Lemma save_images_length posts : forall i0,
  (List.length (Main.save_images fs timestamp i0 posts)
   <= List.length (filter (fun p => OA.is_not_None (OA.visual p)) posts))%nat.
Proof.
  induction posts as [|post posts IH]; intros i0; simpl; [lia|].
  rewrite length_app. specialize (IH (S i0)).
  destruct (OA.visual post) as [[|x xs]|]; simpl; try lia.
  pose proof (write_file_length (Main.image_file timestamp i0) (Main.Binary (x :: xs))).
  lia.
Qed.

Lemma save_images_NoDup posts : forall i0,
  NoDup (map fst (Main.save_images fs timestamp i0 posts)).
Proof.
  induction posts as [|post posts IH]; intros i0; simpl; [constructor|].
  rewrite map_app. specialize (IH (S i0)).
  assert (Hfresh : ~ In (Main.image_file timestamp i0)
                        (map fst (Main.save_images fs timestamp (S i0) posts))).
  { intros Hin. apply in_map_iff in Hin as ([path c] & Hp & Hin). simpl in Hp. subst path.
    apply save_images_spec in Hin as (k & _ & _ & _ & _ & _ & _ & Heq & _).
    apply image_file_inj in Heq. lia. }
  destruct (OA.visual post) as [[|x xs]|]; simpl; try exact IH.
  unfold Main.write_file.
  destruct (Main.open_w fs _); simpl; [|exact IH].
  destruct (Main.write fs _ _); simpl; now constructor.
Qed.

(** X18. [save_content] raises exactly when the output directory cannot be
    created, the JSON file cannot be opened, or its writing fails, for
    instance on a value that cannot be serialised.  In the first two cases
    it leaves no file; in the third it leaves the JSON file incomplete and
    no image file.  An image that cannot be opened or written never makes
    it fail.  When it returns, it leaves the complete JSON file, with the
    text and metadata of every bundle and the statistics, and one image
    file per bundle whose visual is present and not empty and whose file
    could be opened, named after the position of the bundle, complete when
    its writing succeeded and incomplete otherwise; the image files are
    pairwise distinct, distinct from the JSON file, and no more than the
    bundles with a visual. *)
Theorem save_content_files (content_package : OA.ContentPackage) :
  (forall e, Main.makedirs fs Main.output_dir = Raise e ->
             Main.save_content fs timestamp content_package = ([], Raise e))
  /\ (forall u e,
         Main.makedirs fs Main.output_dir = Ok u ->
         Main.open_w fs (Main.output_file timestamp) = Raise e ->
         Main.save_content fs timestamp content_package = ([], Raise e))
  /\ (forall u u' e,
         Main.makedirs fs Main.output_dir = Ok u ->
         Main.open_w fs (Main.output_file timestamp) = Ok u' ->
         Main.write fs (Main.output_file timestamp)
           (Main.Json (map (fun post => (OA.text post, OA.metadata post))
                           (OA.posts content_package))
                      (OA.statistics content_package)) = Raise e ->
         Main.save_content fs timestamp content_package
         = ([(Main.output_file timestamp, Main.Partial)], Raise e))
  /\ (forall u u' u'',
         Main.makedirs fs Main.output_dir = Ok u ->
         Main.open_w fs (Main.output_file timestamp) = Ok u' ->
         Main.write fs (Main.output_file timestamp)
           (Main.Json (map (fun post => (OA.text post, OA.metadata post))
                           (OA.posts content_package))
                      (OA.statistics content_package)) = Ok u'' ->
         exists image_files,
           Main.save_content fs timestamp content_package
           = ((Main.output_file timestamp,
               Main.Complete
                 (Main.Json (map (fun post => (OA.text post, OA.metadata post))
                                 (OA.posts content_package))
                            (OA.statistics content_package))) :: image_files,
              Ok tt) /\
           (forall path f,
               In (path, f) image_files <->
               exists k bundle image,
                 nth_error (OA.posts content_package) k = Some bundle /\
                 OA.visual bundle = Some image /\ image <> [] /\
                 (exists w, Main.open_w fs (Main.image_file timestamp k) = Ok w) /\
                 path = Main.image_file timestamp k /\
                 f = match Main.write fs (Main.image_file timestamp k)
                                      (Main.Binary image) with
                     | Ok _ => Main.Complete (Main.Binary image)
                     | Raise _ => Main.Partial
                     end) /\
           NoDup (map fst image_files) /\
           ~ In (Main.output_file timestamp) (map fst image_files) /\
           (List.length image_files
            <= List.length (filter (fun p => OA.is_not_None (OA.visual p))
                                   (OA.posts content_package)))%nat).
Proof.
  unfold Main.save_content, Main.write_file. split; [|split; [|split]].
  - intros e ->. reflexivity.
  - intros u e -> ->. reflexivity.
  - intros u u' e -> -> ->. reflexivity.
  - intros u u' u'' -> -> ->.
    exists (Main.save_images fs timestamp 0 (OA.posts content_package)).
    split; [reflexivity|]. split; [|split; [|split]].
    + intros path c. apply (save_images_spec (OA.posts content_package) 0%nat).
    + apply save_images_NoDup.
    + intros Hin. apply in_map_iff in Hin as ([path c] & Hp & Hin). simpl in Hp.
      apply save_images_spec in Hin as (k & _ & _ & _ & _ & _ & _ & Heq & _).
      rewrite Hp in Heq.
      unfold Main.image_file, Main.output_file, Main.path_join in Heq.
      do 2 apply append_inj_l in Heq. discriminate.
    + apply save_images_length.
Qed.

End Saving.

(* ================================================================= *)
(** ** Outcomes of the analysis and the prompt derived from it *)

Section Analysis.

Variable analyzer : CA.agent.

(** X21. [process] of the analysis agent returns a profile exactly when its
    input has the key [posts] bound to a sequence of texts that is not
    empty.  A missing key gives the validation error, an empty sequence the
    division error of the sentiment averages, and a value that cannot be
    iterated as texts the error of that iteration. *)
Theorem analysis_outcomes (input_data : list (string * pyval)) :
  (dict_get "posts" input_data = None ->
   CA.process analyzer input_data = Raise (ValueError "Invalid input data"))
  /\ (forall v e,
         dict_get "posts" input_data = Some v ->
         CA.posts_of v = Raise e ->
         CA.process analyzer input_data = Raise e)
  /\ (forall v,
         dict_get "posts" input_data = Some v ->
         CA.posts_of v = Ok [] ->
         CA.process analyzer input_data = Raise (ZeroDivisionError "division by zero"))
  /\ (forall v post posts,
         dict_get "posts" input_data = Some v ->
         CA.posts_of v = Ok (post :: posts) ->
         exists sentiment,
           CA._analyze_overall_sentiment analyzer (post :: posts) = Ok sentiment /\
           CA.process analyzer input_data
           = Ok {| CA.overall_sentiment := sentiment;
                   CA.tone_analysis := CA._analyze_tone (post :: posts);
                   CA.style_characteristics := CA._analyze_style analyzer (post :: posts);
                   CA.common_topics := CA._extract_topics analyzer (post :: posts);
                   CA.language_metrics :=
                     CA._analyze_language_metrics analyzer (post :: posts) |}).
Proof.
  assert (Hvalid : forall v, dict_get "posts" input_data = Some v ->
                             BaseAgent.validate_input (map fst input_data) ["posts"] = true).
  { intros v Hv. unfold BaseAgent.validate_input. simpl.
    assert (H : dict_mem "posts" (map fst input_data) = true)
      by (apply dict_mem_get; eauto).
    now rewrite H. }
  unfold CA.process. split; [|split; [|split]].
  - intros Hnone.
    destruct (BaseAgent.validate_input _ _); simpl; [now rewrite Hnone | reflexivity].
  - intros v e Hv He. rewrite (Hvalid v Hv), Hv. simpl. now rewrite He.
  - intros v Hv He. rewrite (Hvalid v Hv), Hv. simpl. now rewrite He.
  - intros v post posts Hv He. rewrite (Hvalid v Hv), Hv. simpl. rewrite He. simpl.
    unfold CA._analyze_overall_sentiment, div.
    assert (Hlen : (CA.len (map (CA.polarity_scores analyzer) (post :: posts)) =? 0) = false).
    { apply Z.eqb_neq. unfold CA.len. simpl. lia. }
    rewrite Hlen. simpl. eexists. split; reflexivity.
Qed.

Lemma max_by_weight_in rest : forall first,
  In (TG.max_by_weight first rest) (first :: rest).
Proof.
  induction rest as [|item rest IH]; intros first; [now left|].
  rewrite max_by_weight_cons.
  destruct (TG.Qltb (snd first) (snd item)).
  - right. apply IH.
  - destruct (IH first) as [H|H]; [now left | right; now right].
Qed.

(** X20. The system prompt built from a profile of the analysis agent names
    one of the four tones professional, casual, formal, friendly as the
    dominant tone, never "neutral", and lists at most the first five topics
    of the profile. *)
Theorem system_prompt_of_profile (input_data : list (string * pyval))
        analysis post_type target_platform :
  CA.process analyzer input_data = Ok analysis ->
  In (TG.prompt_tone (TG._create_system_prompt analysis post_type target_platform))
     ["professional"; "casual"; "formal"; "friendly"]
  /\ TG.prompt_tone (TG._create_system_prompt analysis post_type target_platform)
     <> "neutral"
  /\ TG.prompt_topics (TG._create_system_prompt analysis post_type target_platform)
     = join ", " (firstn 5 (CA.common_topics analysis))
  /\ (List.length (firstn 5 (CA.common_topics analysis)) <= 5)%nat.
Proof.
  intros Hp.
  assert (Htone : exists posts, CA.tone_analysis analysis = CA._analyze_tone posts).
  { unfold CA.process in Hp.
    destruct (BaseAgent.validate_input _ _); simpl in Hp; [|discriminate].
    destruct (dict_get "posts" input_data) as [v|]; [|discriminate].
    destruct (CA.posts_of v) as [posts|e]; simpl in Hp; [|discriminate].
    destruct (CA._analyze_overall_sentiment analyzer posts); simpl in Hp; [|discriminate].
    injection Hp as <-. now exists posts. }
  destruct Htone as [posts Htone].
  assert (Hin : In (TG.prompt_tone (TG._create_system_prompt analysis post_type
                                                             target_platform))
                   ["professional"; "casual"; "formal"; "friendly"]).
  { unfold TG._create_system_prompt. cbn [TG.prompt_tone]. rewrite Htone.
    rewrite <- (analyze_tone_labels posts).
    unfold TG._get_dominant_tone.
    destruct (CA._analyze_tone posts) as [|first rest] eqn:E.
    - pose proof (analyze_tone_labels posts) as H. rewrite E in H. discriminate.
    - apply in_map. apply max_by_weight_in. }
  split; [exact Hin|]. split; [|split; [reflexivity|]].
  - intros Heq. rewrite Heq in Hin. simpl in Hin.
    repeat (destruct Hin as [Hin|Hin]; [discriminate|]). contradiction.
  - rewrite length_firstn. lia.
Qed.

End Analysis.

(* ================================================================= *)
(** ** Further concrete runs *)

(** X3 on a batch of two posts without client. *)
Lemma process_without_client_witness :
  (TG.client Demo.text_agent = None /\ as_int (VInt 2) = Some 2) /\
  exists batch,
    TG.process Demo.text_agent (Demo.text_input (VInt 2)) = Ok batch /\
    TG.generated_posts batch = repeat TG._generate_mock_post (Z.to_nat 2) /\
    (0 < 2 -> (TG.success_rate (TG.metadata batch) == 1)%Q) /\
    (2 <= 0 -> TG.success_rate (TG.metadata batch) = 0%Q).
Proof.
  split; [split; reflexivity|].
  eapply (process_without_client Demo.text_agent (Demo.text_input (VInt 2)));
    reflexivity.
Defined.

(** X5 on a batch of three attempts of which the second fails. *)
Lemma generated_posts_trimmed_witness :
  exists batch,
    (TG.process Demo.flaky_text_agent (Demo.text_input (VInt 3)) = Ok batch /\
     In "Fresh ideas for your feed #brand" (TG.generated_posts batch)) /\
    "Fresh ideas for your feed #brand" <> "" /\
    Text.trimmed "Fresh ideas for your feed #brand".
Proof.
  eexists. split.
  - split; [vm_compute; reflexivity | now left].
  - destruct (generated_posts_trimmed Demo.flaky_text_agent (Demo.text_input (VInt 3))
                _ "Fresh ideas for your feed #brand" eq_refl (or_introl eq_refl))
      as (Hne & Htrim & _).
    exact (conj Hne Htrim).
Defined.

(** X6 on an image that the endpoint returned and Pillow cannot open. *)
Lemma process_success_spec_witness :
  exists asset,
    (VG.text_content Demo.visual_input = Some "Big launch today #launch @everyone" /\
     VG.brand_guidelines Demo.visual_input = Some Demo.brand_guidelines /\
     VG.process Demo.raw_visual_agent 0 Demo.visual_input = Ok asset /\
     VG.generation_successful (VG.metadata asset) = true) /\
    exists prompt raw, Words.generated Demo.raw_visual_agent 0 prompt raw.
Proof.
  eexists. split.
  - split; [reflexivity|]. split; [reflexivity|]. split; [vm_compute|]; reflexivity.
  - destruct (process_success_spec Demo.raw_visual_agent 0 Demo.visual_input
                "Big launch today #launch @everyone" Demo.brand_guidelines _
                eq_refl eq_refl eq_refl) as [Hs _].
    destruct (Hs eq_refl) as (prompt & raw & _ & Hg & _).
    now exists prompt, raw.
Defined.

(** X7 on a post with a hashtag and a mention. *)
Lemma key_concepts_drop_tags_witness :
  exists prompt,
    VG._create_image_prompt "Big launch today #launch @everyone" Demo.brand_guidelines
      (VDict []) = Ok prompt /\
    split (VG.key_concepts prompt) = ["Big"; "launch"; "today"].
Proof.
  eexists. split; [vm_compute; reflexivity|].
  refine (eq_trans (proj1 (key_concepts_drop_tags "Big launch today #launch @everyone"
                             Demo.brand_guidelines (VDict []) _ _)) _);
    vm_compute; reflexivity.
Defined.

(** X13 on a run of three requested posts. *)
Lemma package_requires_witness :
  exists package,
    OA.process Demo.live_orchestrator Demo.three_posts = (Demo.four_calls, Ok package) /\
    exists existing_posts analysis params platform requested,
      dict_get "existing_posts" Demo.three_posts = Some existing_posts /\
      CA.process Demo.analyzer [("posts", existing_posts)] = Ok analysis /\
      dict_get "generation_params" Demo.three_posts = Some (VDict params) /\
      as_int (dict_get_default "num_posts" params (VInt 1)) = Some requested /\
      dict_get "platform" Demo.three_posts = Some platform /\
      hashable platform = true.
Proof.
  eexists. split; [vm_compute; reflexivity|].
  eapply (package_requires Demo.platform_configs Demo.analyzer Demo.flaky_text_agent
            Demo.live_visual_agent "2024-01-01T00:00:00" Demo.three_posts Demo.four_calls).
  vm_compute. reflexivity.
Defined.

(** X14 on the same run: two posts out of three requested. *)
Lemma success_rate_matches_statistics_witness :
  exists package,
    OA.process Demo.live_orchestrator Demo.three_posts = (Demo.four_calls, Ok package) /\
    exists params requested,
      dict_get "generation_params" Demo.three_posts = Some (VDict params) /\
      as_int (dict_get_default "num_posts" params (VInt 1)) = Some requested /\
      0 <= OA.total_posts (OA.statistics package) <= Z.max 0 requested /\
      forall bundle,
        In bundle (OA.posts package) ->
        0 < requested /\
        (TG.success_rate (OA.text_metadata (OA.metadata bundle))
         == inject_Z (OA.total_posts (OA.statistics package)) / inject_Z requested)%Q.
Proof.
  eexists. split; [vm_compute; reflexivity|].
  apply (success_rate_matches_statistics Demo.platform_configs Demo.analyzer
           Demo.flaky_text_agent Demo.live_visual_agent "2024-01-01T00:00:00"
           Demo.three_posts Demo.four_calls).
  vm_compute. reflexivity.
Defined.

(** X15 on a run without credentials. *)
Lemma no_credential_no_visuals_witness :
  exists package,
    (VG.client Demo.visual_agent = None /\
     OA.process Demo.orchestrator Demo.two_posts = (Demo.four_calls, Ok package)) /\
    OA.posts_with_visuals (OA.statistics package) = 0.
Proof.
  eexists. split.
  - split; [reflexivity | vm_compute; reflexivity].
  - apply (no_credential_no_visuals Demo.platform_configs Demo.analyzer Demo.text_agent
             Demo.visual_agent "2024-01-01T00:00:00" Demo.two_posts Demo.four_calls
             _ eq_refl).
    vm_compute. reflexivity.
Defined.

(** X16 on a request for zero posts. *)
Lemma nothing_requested_witness :
  exists analysis,
    (dict_get "existing_posts" (Demo.request Demo.posts (Demo.params (VInt 0)))
     = Some Demo.posts /\
     dict_get "brand_guidelines" (Demo.request Demo.posts (Demo.params (VInt 0)))
     = Some Demo.brand_guidelines /\
     dict_get "generation_params" (Demo.request Demo.posts (Demo.params (VInt 0)))
     = Some (VDict [("num_posts", VInt 0); ("post_type", VStr "promotional")]) /\
     dict_get "platform" (Demo.request Demo.posts (Demo.params (VInt 0)))
     = Some (VStr "instagram") /\
     CA.process Demo.analyzer [("posts", Demo.posts)] = Ok analysis /\
     as_int (dict_get_default "num_posts"
               [("num_posts", VInt 0); ("post_type", VStr "promotional")] (VInt 1))
     = Some 0 /\
     0 <= 0 /\
     hashable (VStr "instagram") = true) /\
    OA.process Demo.orchestrator (Demo.request Demo.posts (Demo.params (VInt 0)))
    = ([OA.CallAnalysis; OA.CallText],
       Ok {| OA.posts := [];
             OA.statistics := {| OA.total_posts := 0;
                                 OA.posts_with_visuals := 0;
                                 OA.generation_timestamp := "2024-01-01T00:00:00" |} |}).
Proof.
  eexists. split.
  - repeat split; try reflexivity.
  - eapply (nothing_requested Demo.platform_configs Demo.analyzer Demo.text_agent
              Demo.visual_agent "2024-01-01T00:00:00"
              (Demo.request Demo.posts (Demo.params (VInt 0)))
              Demo.posts Demo.brand_guidelines
              [("num_posts", VInt 0); ("post_type", VStr "promotional")]
              (VStr "instagram") _ 0);
      reflexivity.
Defined.

(** X17 on a run of three requested posts. *)
Lemma bundle_prompt_provenance_witness :
  exists package,
    OA.process Demo.live_orchestrator Demo.three_posts = (Demo.four_calls, Ok package) /\
    exists brand_guidelines params platform_specs,
      dict_get "brand_guidelines" Demo.three_posts = Some brand_guidelines /\
      dict_get "generation_params" Demo.three_posts = Some (VDict params) /\
      platform_specs = dict_get_default "instagram" Demo.platform_configs (VDict []).
Proof.
  eexists. split; [vm_compute; reflexivity|].
  destruct (bundle_prompt_provenance Demo.platform_configs Demo.analyzer
              Demo.flaky_text_agent Demo.live_visual_agent "2024-01-01T00:00:00"
              Demo.three_posts Demo.four_calls _ eq_refl)
    as (bg & params & specs & Hb & Hp & Hs & _).
  exists bg, params, specs. split; [exact Hb|]. split; [exact Hp|].
  exact (Hs "instagram" eq_refl).
Defined.

(** X4 on the profile of two posts and a language model that fails on its
    second request. *)
Lemma process_outcomes_witness :
  exists analysis,
    CA.process Demo.analyzer [("posts", Demo.posts)] = Ok analysis /\
    exists batch,
      TG.process Demo.flaky_text_agent (Demo.input_of analysis) = Ok batch /\
      TG.post_type (Demo.input_of analysis)
      = Some (TG.meta_post_type (TG.metadata batch)) /\
      TG.target_platform (Demo.input_of analysis)
      = Some (TG.meta_target_platform (TG.metadata batch)).
Proof.
  eexists. split; [vm_compute; reflexivity|].
  eapply (proj2 (proj2 (process_outcomes Demo.flaky_text_agent (Demo.input_of _)))
            Demo.analyzer [("posts", Demo.posts)] _ (VInt 3) 3).
  - vm_compute. reflexivity.
  - reflexivity.
  - repeat split; discriminate.
  - reflexivity.
  - reflexivity.
Defined.

(** X18 on a disk that is full: the JSON file is left incomplete and no
    image is written. *)
Lemma save_content_files_witness :
  Main.save_content Demo.full_disk "20240101_000000" Demo.package
  = ([(Main.output_file "20240101_000000", Main.Partial)],
     Raise (ExternalError "No space left on device")).
Proof.
  apply (proj1 (proj2 (proj2
           (save_content_files Demo.full_disk "20240101_000000" Demo.package)))
           tt tt (ExternalError "No space left on device")); reflexivity.
Defined.

(** X19 on two runs: in an environment without API key the package holds
    two placeholder posts, with a key that the service rejects it holds
    none. *)
Lemma run_without_api_key_witness :
  (exists package,
      OA.process (Demo.environment None) Demo.two_posts = (Demo.four_calls, Ok package) /\
      OA.total_posts (OA.statistics package) = 2 /\
      OA.posts_with_visuals (OA.statistics package) = 0) /\
  (exists package,
      OA.process (Demo.environment (Some "sk-revoked")) Demo.two_posts
      = ([OA.CallAnalysis; OA.CallText], Ok package) /\
      OA.posts package = []).
Proof.
  split.
  - eexists. split; [vm_compute; reflexivity|]. split; [vm_compute; reflexivity|].
    refine (proj1 (proj2 (proj2
      (proj1 (run_without_api_key Demo.platform_configs Demo.analyzer
                Demo.rejected_chat Demo.rejected_images
                (VG.b64decode Demo.visual_agent) (VG.pil_pipeline Demo.visual_agent)
                Demo.placeholder_jpeg "2024-01-01T00:00:00" None Demo.two_posts
                Demo.four_calls _ _)
             (or_introl eq_refl))))).
    vm_compute. reflexivity.
  - eexists. split; [vm_compute; reflexivity|].
    refine (proj1 (proj2
      (proj2 (run_without_api_key Demo.platform_configs Demo.analyzer
                Demo.rejected_chat Demo.rejected_images
                (VG.b64decode Demo.visual_agent) (VG.pil_pipeline Demo.visual_agent)
                Demo.placeholder_jpeg "2024-01-01T00:00:00" (Some "sk-revoked")
                Demo.two_posts [OA.CallAnalysis; OA.CallText] _ _)
             "sk-revoked" _ eq_refl _ eq_refl)
      _)).
    + vm_compute. reflexivity.
    + discriminate.
    + intros i prompt. eexists. reflexivity.
Defined.

(** X20 on the profile of two posts. *)
Lemma system_prompt_of_profile_witness :
  exists analysis,
    CA.process Demo.analyzer [("posts", Demo.posts)] = Ok analysis /\
    TG.prompt_tone (TG._create_system_prompt analysis (VStr "promotional")
                                             (VStr "instagram"))
    <> "neutral".
Proof.
  eexists. split; [vm_compute; reflexivity|].
  apply (system_prompt_of_profile Demo.analyzer [("posts", Demo.posts)] _
           (VStr "promotional") (VStr "instagram") eq_refl).
Defined.
